(** * The rule-based resume analyzer (SimpleMLResumeAnalyzer)

    A shallow embedding of the analysis pipeline of
    [simple-ml-resume-analyzer.js]: text normalisation, the six section
    scorers, the weighted overall score, recommendations, industry
    detection, roadmap, role suggestion and the salary estimate.

    Conventions of the embedding.
    - A JavaScript string is a [string]: one [ascii] per UTF-16 code unit,
      for text in the range U+0000..U+00FF.
    - Counts (array lengths) and the section formulas built from them are
      integers far below 2^53, where binary64 arithmetic is exact; they are
      carried as [Z].  The weighted sum and the salary multiplier involve
      the non-integers 0.25, 0.15, 0.1 and 0.2 and are computed in binary64
      ([float]), as the source does.
    - [natural.WordTokenizer], [stopword.removeStopwords] and
      [natural.PorterStemmer.stem] belong to third-party packages; the
      analyzer is parameterised by them. *)

From Stdlib Require Import ZArith NArith List Bool Ascii String DecimalString Lia.
From Stdlib Require Import Floats FMapPositive.
Import ListNotations.

#[local] Set Warnings "-inexact-float".
#[local] Open Scope string_scope.
#[local] Open Scope list_scope.
#[local] Open Scope Z_scope.

(** ** JavaScript primitives *)

Module JS.

Definition code (c : ascii) : N := N_of_ascii c.

Definition between (lo hi : N) (c : ascii) : bool :=
  ((lo <=? code c) && (code c <=? hi))%N.

Definition isCode (n : N) (c : ascii) : bool := (code c =? n)%N.

(** [[A-Z]], [[a-z]], [\d], [\s] and the word characters of [\b]. *)
Definition isUpper (c : ascii) : bool := between 65 90 c.
Definition isLower (c : ascii) : bool := between 97 122 c.
Definition isDigit (c : ascii) : bool := between 48 57 c.
Definition isSpace (c : ascii) : bool := between 9 13 c || isCode 32 c || isCode 160 c.
Definition isWord (c : ascii) : bool := isUpper c || isLower c || isDigit c || isCode 95 c.

(** [String.prototype.toLowerCase], on U+0000..U+00FF: A-Z and the
    accented capitals U+00C0..U+00DE (but not the sign U+00D7) move up by 32. *)
Definition lowerChar (c : ascii) : ascii :=
  if isUpper c || (between 192 222 c && negb (isCode 215 c))
  then ascii_of_N (code c + 32) else c.

Fixpoint mapString (f : ascii -> ascii) (s : string) : string :=
  match s with
  | EmptyString => EmptyString
  | String c s' => String (f c) (mapString f s')
  end.

Fixpoint filterString (p : ascii -> bool) (s : string) : string :=
  match s with
  | EmptyString => EmptyString
  | String c s' => if p c then String c (filterString p s') else filterString p s'
  end.

Definition toLowerCase (s : string) : string := mapString lowerChar s.

(** [s.includes(sub)] *)
Fixpoint includes (s sub : string) : bool :=
  if String.prefix sub s then true
  else match s with
       | EmptyString => false
       | String _ s' => includes s' sub
       end.

(** [String.prototype.trim] *)
Fixpoint trimStart (s : string) : string :=
  match s with
  | String c s' => if isSpace c then trimStart s' else s
  | EmptyString => EmptyString
  end.

Fixpoint trimEnd (s : string) : string :=
  match s with
  | EmptyString => EmptyString
  | String c s' =>
      let t := trimEnd s' in
      if isSpace c && (t =? "")%string then EmptyString else String c t
  end.

Definition trim (s : string) : string := trimEnd (trimStart s).

(** [arr.join(sep)] *)
Fixpoint join (sep : string) (l : list string) : string :=
  match l with
  | [] => ""
  | [x] => x
  | x :: rest => x ++ sep ++ join sep rest
  end.

(** [arr.slice(0, n)] *)
Definition slice0 {A} (n : nat) (l : list A) : list A := firstn n l.

(** [[...new Set(arr)]]: a [Set] keeps its elements in insertion order and
    ignores the insertion of an element it already holds. *)
Definition Set_add (acc : list string) (x : string) : list string :=
  if existsb (String.eqb x) acc then acc else acc ++ [x].

Definition Set_of (l : list string) : list string := fold_left Set_add l [].

(** The binary64 value of a small non-negative integer. *)
Definition number (z : Z) : float := PrimFloat.of_uint63 (Uint63.of_Z z).

(** [Math.round]: the integral value closest to [x], ties toward +infinity;
    zeros, infinities and NaN are returned unchanged, and so is every value
    whose exponent leaves no fractional bits. *)
Definition Math_round (x : float) : float :=
  match Prim2SF x with
  | S754_finite neg m e =>
      if 0 <=? e then x
      else
        let half := 2 ^ (- e) in
        if neg
        then (- number (- ((half - 2 * Z.pos m) / (2 * half))))%float
        else number ((2 * Z.pos m + half) / (2 * half))
  | _ => x
  end.

(** [Math.min(x, y)] *)
Definition Math_min (x y : float) : float :=
  if PrimFloat.is_nan x || PrimFloat.is_nan y then PrimFloat.nan
  else if (x <? y)%float then x
  else if (y <? x)%float then y
  else if PrimFloat.get_sign x then x else y.

End JS.

(** ** Regular expressions

    The regular expressions of the source, as syntax trees, with the
    backtracking semantics of the JavaScript matcher: alternatives are tried
    left to right, [*] is greedy, and a match continues into what follows it
    (the continuation [k]) before an alternative is given up. *)

Module Regex.

Inductive regex : Type :=
| Class (p : ascii -> bool)
| Empty
| Seq (r1 r2 : regex)
| Alt (r1 r2 : regex)
| Star (r : regex)
| Boundary.

Definition Plus (r : regex) : regex := Seq r (Star r).
Definition Opt (r : regex) : regex := Alt r Empty.

(** A literal character; under the [i] flag an ASCII letter matches both of
    its cases. *)
Definition foldCase (c : ascii) : ascii :=
  if JS.isUpper c then ascii_of_N (JS.code c + 32) else c.

Definition chrI (c : ascii) : regex :=
  Class (fun x => Ascii.eqb (foldCase x) (foldCase c)).

Fixpoint litI (s : string) : regex :=
  match s with
  | EmptyString => Empty
  | String c EmptyString => chrI c
  | String c s' => Seq (chrI c) (litI s')
  end.

(** The position of a match attempt: the character before it (none at the
    start of the text) and the text from it on. *)
Definition position : Type := option ascii * string.

Definition wordBefore (prev : option ascii) : bool :=
  match prev with Some c => JS.isWord c | None => false end.

Definition wordAt (s : string) : bool :=
  match s with String c _ => JS.isWord c | EmptyString => false end.

Fixpoint run (r : regex) (prev : option ascii) (s : string)
    (k : option ascii -> string -> option position) {struct r} : option position :=
  match r with
  | Class p =>
      match s with
      | String c s' => if p c then k (Some c) s' else None
      | EmptyString => None
      end
  | Empty => k prev s
  | Seq r1 r2 => run r1 prev s (fun prev' s' => run r2 prev' s' k)
  | Alt r1 r2 =>
      match run r1 prev s k with
      | Some res => Some res
      | None => run r2 prev s k
      end
  | Star r1 =>
      (fix loop (n : nat) (prev : option ascii) (s : string) {struct n} : option position :=
         match n with
         | O => k prev s
         | S n' =>
             match run r1 prev s
                     (fun prev' s' =>
                        if (String.length s' <? String.length s)%nat
                        then loop n' prev' s' else None) with
             | Some res => Some res
             | None => k prev s
             end
         end) (String.length s) prev s
  | Boundary => if xorb (wordBefore prev) (wordAt s) then k prev s else None
  end.

(** One attempt at one position: the position just after the match. *)
Definition matchAt (r : regex) (prev : option ascii) (s : string) : option position :=
  run r prev s (fun prev' s' => Some (prev', s')).

(** [text.match(/r/g)]: the matched substrings, left to right; the search
    resumes where the last match ended (one character further after an
    empty match). *)
Fixpoint matchAllFrom (r : regex) (fuel : nat) (prev : option ascii) (s : string)
    : list string :=
  match fuel with
  | O => []
  | S fuel' =>
      let next :=
        match s with
        | String c s' => matchAllFrom r fuel' (Some c) s'
        | EmptyString => []
        end in
      match matchAt r prev s with
      | Some (prev', rest) =>
          let m := String.substring 0 (String.length s - String.length rest) s in
          if (String.length rest <? String.length s)%nat
          then m :: matchAllFrom r fuel' prev' rest
          else m :: next
      | None => next
      end
  end.

Definition matchAll (r : regex) (s : string) : list string :=
  matchAllFrom r (S (String.length s)) None s.

(** [(text.match(/r/g) || []).length] *)
Definition count (r : regex) (s : string) : Z :=
  Z.of_nat (List.length (matchAll r s)).

(** [/r/.test(text)] *)
Definition test (r : regex) (s : string) : bool :=
  match matchAll r s with
  | [] => false
  | _ :: _ => true
  end.

End Regex.

(** ** Third-party text processing *)

Module Natural.

(** [new natural.WordTokenizer().tokenize(s)] splits [s] at every maximal
    run of characters that are not letters, digits or the underscore
    (pattern [[^A-Za-z0-9_]+] on the modelled range) and discards the empty
    pieces: the tokens are the maximal runs of word characters. *)
Fixpoint tokenizeFrom (cur : string) (s : string) : list string :=
  let flush := if (cur =? "")%string then [] else [cur] in
  match s with
  | EmptyString => flush
  | String c s' =>
      if JS.isWord c then tokenizeFrom (cur ++ String c "")%string s'
      else flush ++ tokenizeFrom "" s'
  end.

Definition WordTokenizer_tokenize (s : string) : list string := tokenizeFrom "" s.

End Natural.

(** The functions the analyzer takes from its environment. *)
Class Library : Type := {
  (** [this.tokenizer.tokenize] *)
  tokenize : string -> list string;
  (** [sw.removeStopwords] *)
  removeStopwords : list string -> list string;
  (** [this.stemmer.stem] *)
  stem : string -> string;
  (** [Number.prototype.toLocaleString], which depends on the host locale *)
  toLocaleString : float -> string;
  (** the conversion of a number inside a template literal *)
  numberToString : float -> string
}.

(** ** Data model *)

Record Sections : Type := {
  skills : Z;
  experience : Z;
  education : Z;
  projects : Z;
  formatting : Z;
  achievements : Z
}.

Record Recommendation : Type := {
  problem : string;
  solution : string;
  priority : string;
  expectedImpact : string
}.

Record RoadmapItem : Type := {
  title : string;
  type : string;
  description : string
}.

Record Range : Type := { min : float; max : float }.

Record Salary : Type := { range : string; justification : string }.

(** The report of [analyzeResume].  The fields [executiveSummary],
    [strengths] and [weaknesses] of the source are sentences assembled from
    the values below and are left out.  The six section entries of [scores]
    are [Math.round] of integers, that is the section scores themselves. *)
Record Report : Type := {
  overall : float;
  scores : Sections;
  experienceLevel : string;
  primarySkills : list string;
  detailedRecommendations : list Recommendation;
  roadmap : list RoadmapItem;
  targetRoles : list string;
  salaryExpectation : Salary
}.

(** The analyzer instance: its one mutable field. *)
Record Analyzer : Type := { lastResumeText : option string }.

(** The outcome of the promise [analyzeResume] returns. *)
Inductive Outcome : Type :=
| Resolved (report : Report)
| Rejected (message : string).

(** A JavaScript object literal used as a table: its own keys in insertion
    order. *)
Fixpoint lookup {A : Type} (key : string) (o : list (string * A)) : option A :=
  match o with
  | [] => None
  | (k, v) :: rest => if (k =? key)%string then Some v else lookup key rest
  end.

(** [o[key] || o[fallback]], for a table of arrays and a key that is an own
    key of the table or no property at all: the analyzer calls it with the
    industry it has detected. *)
Definition lookupOr {A : Type} (key fallback : string) (o : list (string * list A))
    : list A :=
  match lookup key o with
  | Some v => v
  | None => match lookup fallback o with Some v => v | None => [] end
  end.

(** [o[key] = v]: an existing key keeps its place, a new one goes last. *)
Fixpoint setProp {A : Type} (key : string) (v : A) (o : list (string * A))
    : list (string * A) :=
  match o with
  | [] => [(key, v)]
  | (k, w) :: rest =>
      if (k =? key)%string then (k, v) :: rest else (k, w) :: setProp key v rest
  end.

(** [if (c) arr.push(x)] *)
Definition pushIf {A : Type} (c : bool) (arr : list A) (x : A) : list A :=
  if c then arr ++ [x] else arr.

(** [arr.filter(p).length] *)
Definition countIf {A : Type} (p : A -> bool) (arr : list A) : Z :=
  Z.of_nat (List.length (filter p arr)).

(** ** Knowledge tables *)

(** [this.industryKeywords] *)
Definition industryKeywords : list (string * list string) :=
  [
  ("frontend",
   ["javascript"; "react"; "vue"; "angular"; "html"; "css"; "typescript"; "nodejs";
    "webpack"; "bootstrap"]);
  ("backend",
   ["python"; "java"; "nodejs"; "express"; "mongodb"; "postgresql"; "api"; "rest";
    "microservices"; "spring"]);
  ("data_science",
   ["python"; "r"; "sql"; "pandas"; "numpy"; "machine learning"; "tensorflow";
    "scikit-learn"; "data analysis"]);
  ("devops",
   ["docker"; "kubernetes"; "aws"; "jenkins"; "ci/cd"; "terraform"; "ansible"; "linux";
    "bash"]);
  ("mobile",
   ["react native"; "flutter"; "swift"; "kotlin"; "android"; "ios"; "mobile development"])
  ].

(** [this.skillCategories] *)
Definition skillCategories : list (string * list string) :=
  [
  ("programming_languages",
   ["javascript"; "python"; "java"; "c++"; "c#"; "go"; "rust"; "php"]);
  ("frameworks",
   ["react"; "vue"; "angular"; "express"; "django"; "spring"; "laravel"]);
  ("databases",
   ["mysql"; "postgresql"; "mongodb"; "redis"; "oracle"; "sql server"]);
  ("tools",
   ["git"; "docker"; "kubernetes"; "aws"; "azure"; "jenkins"; "webpack"]);
  ("soft_skills",
   ["communication"; "leadership"; "teamwork"; "problem solving"; "agile"])
  ].

(** [industryIndicators] of [generateRoadmap] *)
Definition roadmapIndicators : list (string * list string) :=
  [
  ("technology",
   ["software"; "developer"; "programmer"; "coding"; "web"; "app"; "mobile"; "frontend";
    "backend"; "fullstack"]);
  ("business",
   ["manager"; "marketing"; "sales"; "business"; "finance"; "accounting"; "hr"; "operations"]);
  ("healthcare",
   ["doctor"; "nurse"; "medical"; "healthcare"; "hospital"; "pharmacy"; "clinical"]);
  ("education",
   ["teacher"; "professor"; "educator"; "teaching"; "school"; "university"; "training"]);
  ("engineering",
   ["engineer"; "civil"; "mechanical"; "electrical"; "chemical"; "design"]);
  ("creative",
   ["designer"; "artist"; "creative"; "graphic"; "content"; "writer"; "photographer"]);
  ("service",
   ["customer service"; "hospitality"; "hotel"; "restaurant"; "retail"; "sales"]);
  ("legal",
   ["lawyer"; "legal"; "attorney"; "court"; "judge"; "paralegal"]);
  ("government",
   ["government"; "public"; "police"; "fire"; "military"; "defense"]);
  ("finance",
   ["banking"; "investment"; "finance"; "accountant"; "financial"; "insurance"])
  ].

(** [industryIndicators] of [suggestRoles] *)
Definition roleIndicators : list (string * list string) :=
  [
  ("technology",
   ["software"; "developer"; "programmer"; "coding"; "web"; "app"; "mobile"; "frontend";
    "backend"; "fullstack"; "react"; "angular"; "vue"; "node"; "python"; "java";
    "javascript"]);
  ("business",
   ["manager"; "marketing"; "sales"; "business"; "finance"; "accounting"; "hr";
    "human resources"; "operations"; "project management"; "strategy"; "consulting"]);
  ("healthcare",
   ["doctor"; "nurse"; "medical"; "healthcare"; "hospital"; "pharmacy"; "pharmacist";
    "clinical"; "patient care"; "therapy"; "dentist"]);
  ("education",
   ["teacher"; "professor"; "educator"; "teaching"; "school"; "university"; "training";
    "instruction"; "curriculum"; "academic"]);
  ("engineering",
   ["engineer"; "civil"; "mechanical"; "electrical"; "chemical"; "design"; "construction";
    "manufacturing"; "technical"]);
  ("creative",
   ["designer"; "artist"; "creative"; "graphic"; "content"; "writer"; "photographer";
    "video"; "media"; "advertising"]);
  ("service",
   ["customer service"; "hospitality"; "hotel"; "restaurant"; "retail"; "sales"; "support";
    "call center"; "client"]);
  ("legal",
   ["lawyer"; "legal"; "attorney"; "court"; "judge"; "paralegal"; "law"; "juris"; "advocate"]);
  ("government",
   ["government"; "public"; "police"; "fire"; "military"; "defense"; "civil service";
    "administration"; "public service"]);
  ("finance",
   ["banking"; "investment"; "finance"; "accountant"; "financial"; "insurance"; "audit";
    "tax"; "wealth management"])
  ].

(** [industryRoles] of [suggestRoles] *)
Definition industryRoles : list (string * list string) :=
  [
  ("technology",
   ["Software Developer"; "IT Specialist"; "Technical Consultant"; "Systems Analyst";
    "Web Developer"]);
  ("business",
   ["Business Analyst"; "Marketing Manager"; "Sales Executive"; "Operations Manager";
    "Project Coordinator"]);
  ("healthcare",
   ["Healthcare Professional"; "Medical Assistant"; "Clinical Specialist";
    "Healthcare Administrator"; "Patient Care Coordinator"]);
  ("education",
   ["Educator"; "Training Specialist"; "Instructional Designer"; "Academic Advisor";
    "Learning Consultant"]);
  ("engineering",
   ["Engineer"; "Technical Specialist"; "Design Engineer"; "Project Engineer";
    "Technical Consultant"]);
  ("creative",
   ["Creative Professional"; "Content Creator"; "Media Specialist"; "Design Consultant";
    "Creative Director"]);
  ("service",
   ["Customer Service Professional"; "Hospitality Manager"; "Service Coordinator";
    "Client Relations Specialist"; "Operations Associate"]);
  ("legal",
   ["Legal Professional"; "Paralegal"; "Legal Assistant"; "Compliance Specialist";
    "Legal Consultant"]);
  ("government",
   ["Public Service Professional"; "Administrative Officer"; "Government Specialist";
    "Public Policy Assistant"; "Civil Service Professional"]);
  ("finance",
   ["Financial Professional"; "Accounting Specialist"; "Financial Analyst";
    "Banking Professional"; "Investment Associate"]);
  ("general",
   ["Professional"; "Specialist"; "Coordinator"; "Associate"; "Consultant"])
  ].

(** [experienceRoles] of [suggestRoles] *)
Definition experienceRoles : list (string * list string) :=
  [
  ("senior",
   ["Senior"; "Lead"; "Manager"; "Director"; "Head"]);
  ("mid",
   ["Specialist"; "Coordinator"; "Analyst"; "Professional"; "Consultant"]);
  ("entry",
   ["Associate"; "Assistant"; "Junior"; "Trainee"; "Coordinator"])
  ].

(** [industryRoadmaps] of [generateRoadmap] *)
Definition industryRoadmaps : list (string * list RoadmapItem) :=
  [
    ("technology",
     [
     {| title := "Master Core Technical Skills";
        type := "learn";
        description := "Strengthen programming fundamentals and core technologies" |};
     {| title := "Build Practical Projects";
        type := "project";
        description := "Create real-world applications to demonstrate expertise" |};
     {| title := "Learn Industry Best Practices";
        type := "learn";
        description := "Study modern development methodologies and standards" |}
     ]);
    ("business",
     [
     {| title := "Develop Business Acumen";
        type := "learn";
        description := "Understand market dynamics and business operations" |};
     {| title := "Enhance Communication Skills";
        type := "learn";
        description := "Build strong presentation and negotiation abilities" |};
     {| title := "Gain Leadership Experience";
        type := "project";
        description := "Lead initiatives and manage team projects" |}
     ]);
    ("healthcare",
     [
     {| title := "Advance Clinical Knowledge";
        type := "learn";
        description := "Stay updated with latest medical practices and technologies" |};
     {| title := "Develop Patient Care Skills";
        type := "project";
        description := "Enhance bedside manner and patient communication" |};
     {| title := "Pursue Specialization";
        type := "learn";
        description := "Focus on specific medical areas of interest" |}
     ]);
    ("education",
     [
     {| title := "Enhance Teaching Methodologies";
        type := "learn";
        description := "Learn modern pedagogical approaches and techniques" |};
     {| title := "Develop Curriculum Skills";
        type := "project";
        description := "Create engaging educational content and materials" |};
     {| title := "Build Educational Technology Skills";
        type := "learn";
        description := "Master digital tools for modern education" |}
     ]);
    ("engineering",
     [
     {| title := "Strengthen Technical Foundation";
        type := "learn";
        description := "Master core engineering principles and mathematics" |};
     {| title := "Gain Practical Experience";
        type := "project";
        description := "Work on hands-on engineering projects and designs" |};
     {| title := "Learn Industry Standards";
        type := "learn";
        description := "Understand safety protocols and engineering best practices" |}
     ]);
    ("creative",
     [
     {| title := "Develop Creative Portfolio";
        type := "project";
        description := "Build a strong portfolio showcasing diverse creative work" |};
     {| title := "Master Design Tools";
        type := "learn";
        description := "Become proficient in industry-standard creative software" |};
     {| title := "Understand Market Trends";
        type := "learn";
        description := "Stay current with design trends and creative industry developments" |}
     ]);
    ("service",
     [
     {| title := "Enhance Customer Service Skills";
        type := "learn";
        description := "Develop exceptional client interaction and problem-solving abilities" |};
     {| title := "Learn Service Industry Best Practices";
        type := "learn";
        description := "Understand hospitality and service excellence standards" |};
     {| title := "Build Management Skills";
        type := "project";
        description := "Gain experience in team coordination and service operations" |}
     ]);
    ("legal",
     [
     {| title := "Deepen Legal Knowledge";
        type := "learn";
        description := "Study relevant laws, regulations, and legal precedents" |};
     {| title := "Develop Analytical Skills";
        type := "learn";
        description := "Enhance legal research and case analysis capabilities" |};
     {| title := "Gain Practical Legal Experience";
        type := "project";
        description := "Participate in real legal cases and client interactions" |}
     ]);
    ("government",
     [
     {| title := "Understand Public Policy";
        type := "learn";
        description := "Study governance structures and public administration" |};
     {| title := "Develop Civic Engagement Skills";
        type := "learn";
        description := "Learn community outreach and public service delivery" |};
     {| title := "Build Leadership in Public Service";
        type := "project";
        description := "Lead initiatives that benefit communities and citizens" |}
     ]);
    ("finance",
     [
     {| title := "Master Financial Analysis";
        type := "learn";
        description := "Develop skills in financial modeling and market analysis" |};
     {| title := "Understand Regulatory Framework";
        type := "learn";
        description := "Study financial regulations and compliance requirements" |};
     {| title := "Gain Investment Experience";
        type := "project";
        description := "Work on portfolio management and investment strategies" |}
     ]);
    ("general",
     [
     {| title := "Develop Professional Skills";
        type := "learn";
        description := "Enhance communication, organization, and time management" |};
     {| title := "Build Industry Knowledge";
        type := "learn";
        description := "Gain expertise in your chosen field through continuous learning" |};
     {| title := "Create Professional Network";
        type := "project";
        description := "Connect with industry professionals and mentors" |}
     ])
  ].

(** [baseRanges] of [estimateSalary] *)
Definition baseRanges : list (string * Range) :=
  [ ("Entry Level", {| min := 45000; max := 75000 |});
    ("Mid Level", {| min := 75000; max := 125000 |});
    ("Senior Level", {| min := 125000; max := 185000 |}) ]%float.

(** The names of the properties an object literal inherits from
    [Object.prototype].  Under each of them [baseRanges[name]] is a function
    or, for [__proto__], the prototype object itself: a truthy value with
    neither a [min] nor a [max]. *)
Definition inheritedProperties : list string :=
  [ "constructor"; "__defineGetter__"; "__defineSetter__"; "hasOwnProperty";
    "__lookupGetter__"; "__lookupSetter__"; "isPrototypeOf";
    "propertyIsEnumerable"; "toString"; "valueOf"; "__proto__";
    "toLocaleString" ].

(** ** The regular expressions of the source *)

Module Patterns.
Import Regex.

Definition digit : regex := Class JS.isDigit.
Definition space : regex := Class JS.isSpace.

(** [(?:year|yr)s?] under the [i] flag *)
Definition yearUnit : regex := Seq (Alt (litI "year") (litI "yr")) (Opt (litI "s")).

(** [/\d+\s*(?:year|yr)s?|month|present|current/gi], joined from
    [timePatterns] *)
Definition time : regex :=
  Alt (Seq (Plus digit) (Seq (Star space) yearUnit))
      (Alt (litI "month") (Alt (litI "present") (litI "current"))).

(** [/\n/g], [/[-•*]/g] (the bullet U+2022 lies outside the modelled range),
    [/:/g] and [/[A-Z][a-z]+/g] *)
Definition newline : regex := Class (JS.isCode 10).
Definition bullet : regex := Class (fun c => JS.isCode 45 c || JS.isCode 42 c).
Definition colon : regex := Class (JS.isCode 58).
Definition capitalized : regex := Seq (Class JS.isUpper) (Plus (Class JS.isLower)).

(** [/\d+[%kmg]|increase|decrease|improve|reduce/gi] *)
Definition quantified : regex :=
  Alt (Seq (Plus digit)
           (Class (fun c => JS.isCode 37 c
                            || Ascii.eqb (foldCase c) "k"
                            || Ascii.eqb (foldCase c) "m"
                            || Ascii.eqb (foldCase c) "g")))
      (Alt (litI "increase") (Alt (litI "decrease") (Alt (litI "improve") (litI "reduce")))).

(** [/[\d+%$]|increase|decrease|improve|reduce|save|generate/i]: inside the
    brackets [+] is a member of the class, next to the digits, [%] and [$]. *)
Definition quantificationSignal : regex :=
  Alt (Class (fun c => JS.isDigit c || JS.isCode 43 c || JS.isCode 37 c || JS.isCode 36 c))
      (Alt (litI "increase") (Alt (litI "decrease") (Alt (litI "improve")
        (Alt (litI "reduce") (Alt (litI "save") (litI "generate")))))).

(** [/\b(\d+)\s*(?:year|yr)s?\b/gi] *)
Definition years : regex :=
  Seq Boundary (Seq (Plus digit) (Seq (Star space) (Seq yearUnit Boundary))).

End Patterns.

(** [parseInt(s)] for a string that starts with decimal digits (every match
    of [Patterns.years] does): the value of its leading digits; [None] is
    NaN.  The exact integer stands for the binary64 value: the analyzer only
    compares it with 5 and 2. *)
Fixpoint digitsValue (acc : Z) (s : string) : Z :=
  match s with
  | String c s' =>
      if JS.isDigit c then digitsValue (10 * acc + (Z.of_N (JS.code c) - 48)) s'
      else acc
  | EmptyString => acc
  end.

Definition parseInt (s : string) : option Z :=
  match s with
  | String c _ => if JS.isDigit c then Some (digitsValue 0 s) else None
  | EmptyString => None
  end.

(** [Math.max(...values)] for a non-empty argument list; NaN is contagious. *)
Fixpoint Math_max (values : list (option Z)) : option Z :=
  match values with
  | [] => None
  | [v] => v
  | v :: rest =>
      match v, Math_max rest with
      | Some a, Some b => Some (Z.max a b)
      | _, _ => None
      end
  end.

(** [v >= n], false when [v] is NaN *)
Definition atLeast (v : option Z) (n : Z) : bool :=
  match v with Some a => n <=? a | None => false end.

(** [.sort(([,a], [,b]) => b - a)]: the entries by decreasing count, entries
    of equal count in their original order (the sort is stable). *)
Fixpoint insertByCount (e : string * Z) (l : list (string * Z)) : list (string * Z) :=
  match l with
  | [] => [e]
  | x :: rest => if snd x <=? snd e then e :: l else x :: insertByCount e rest
  end.

Definition sortByCount (l : list (string * Z)) : list (string * Z) :=
  fold_right insertByCount [] l.

(** ** The analyzer *)

Section Analyzer.

Context {lib : Library}.

(** [keyword.toLowerCase().replace(/\s+/g, '')] *)
Definition cleanKeyword (keyword : string) : string :=
  JS.filterString (fun c => negb (JS.isSpace c)) (JS.toLowerCase keyword).

(** [token.includes(cleanKeyword) || cleanKeyword.includes(token)] *)
Definition matchesKeyword (token keyword : string) : bool :=
  JS.includes token (cleanKeyword keyword) || JS.includes (cleanKeyword keyword) token.

(** The characters kept by [/[^a-zA-Z0-9\s\-\/\+\#\.\@\_\(\)]/g] *)
Definition keptChar (c : ascii) : bool :=
  JS.isLower c || JS.isUpper c || JS.isDigit c || JS.isSpace c
  || existsb (Ascii.eqb c) (list_ascii_of_string "-/+#.@_()").

Definition removeSpecial (s : string) : string :=
  JS.mapString (fun c => if keptChar c then c else " "%char) s.

Definition preprocessText (text : string) : list string :=
  let processed := JS.toLowerCase text in
  let processed := removeSpecial processed in
  let tokens := tokenize processed in
  let filteredTokens := removeStopwords tokens in
  let stemmedTokens := map stem filteredTokens in
  stemmedTokens.

(** [tokens.filter(token => patterns.some(p => token.includes(p))).length] *)
Definition mentions (patterns : list string) (tokens : list string) : Z :=
  countIf (fun token => existsb (fun pattern => JS.includes token pattern) patterns) tokens.

(** [tokens.filter(token => keywords.some(keyword => ...)).length] *)
Definition keywordTokens (keywords : list string) (tokens : list string) : Z :=
  countIf (fun token => existsb (fun keyword => matchesKeyword token keyword) keywords) tokens.

(** [keywords.filter(keyword => tokens.some(token => ...))] *)
Definition matchedKeywords (keywords : list string) (tokens : list string) : list string :=
  filter (fun keyword => existsb (fun token => matchesKeyword token keyword) tokens) keywords.

Definition scoreSkillsSection (text : string) : Z :=
  let skillIndicators :=
    ["skill"; "competency"; "proficiency"; "expertise"; "knowledge"; "ability"] in
  let tokens := preprocessText text in
  let skillMentions := mentions skillIndicators tokens in
  let technicalScore :=
    fold_left (fun technicalScore keywords =>
                 let matches := keywordTokens keywords tokens in
                 Z.max technicalScore matches)
              (map snd skillCategories) 0 in
  Z.min 100 (skillMentions * 8 + technicalScore * 6).

Definition scoreExperienceSection (text : string) : Z :=
  let experiencePatterns :=
    ["experience"; "work"; "position"; "role"; "responsibility"; "duty"; "task"] in
  let tokens := preprocessText text in
  let experienceMentions := mentions experiencePatterns tokens in
  let timeMentions := Regex.count Patterns.time text in
  Z.min 100 (experienceMentions * 10 + timeMentions * 5).

Definition scoreEducationSection (text : string) : Z :=
  let educationPatterns :=
    ["education"; "degree"; "university"; "college"; "bachelor"; "master"; "phd";
     "bs"; "ms"; "ba"; "ma"] in
  let tokens := preprocessText text in
  let educationMentions := mentions educationPatterns tokens in
  Z.min 100 (educationMentions * 15).

Definition scoreProjectsSection (text : string) : Z :=
  let projectPatterns :=
    ["project"; "portfolio"; "built"; "developed"; "created"; "designed"; "implemented"] in
  let tokens := preprocessText text in
  let projectMentions := mentions projectPatterns tokens in
  Z.min 100 (projectMentions * 20).

Definition scoreFormatting (text : string) : Z :=
  let structureScore := if 10 <? Regex.count Patterns.newline text then 25 else 10 in
  let bulletScore := if 5 <? Regex.count Patterns.bullet text then 25 else 10 in
  let sectionScore := if 3 <? Regex.count Patterns.colon text then 20 else 5 in
  let capitalScore := if 20 <? Regex.count Patterns.capitalized text then 20 else 10 in
  Z.min 100 (structureScore + bulletScore + sectionScore + capitalScore).

Definition scoreAchievementsSection (text : string) : Z :=
  let achievementPatterns :=
    ["achieve"; "award"; "recognition"; "certification"; "certified";
     "accomplishment"; "success"] in
  let tokens := preprocessText text in
  let achievementMentions := mentions achievementPatterns tokens in
  let quantifiedScore := Regex.count Patterns.quantified text * 5 in
  Z.min 100 (achievementMentions * 10 + quantifiedScore).

Definition scoreSections (resumeText : string) : Sections :=
  {| skills := scoreSkillsSection resumeText;
     experience := scoreExperienceSection resumeText;
     education := scoreEducationSection resumeText;
     projects := scoreProjectsSection resumeText;
     formatting := scoreFormatting resumeText;
     achievements := scoreAchievementsSection resumeText |}.

(** *** Recommendations *)

Definition lacksQuantification : Recommendation :=
  {| problem := "Resume lacks quantified achievements";
     solution := "Add specific metrics to describe your accomplishments (e.g., 'Increased sales by 25%', 'Managed team of 5 developers', 'Reduced processing time by 40%')";
     priority := "High";
     expectedImpact := "Makes your contributions measurable and more impactful to employers" |}.

Definition missingKeywordsRec (missingKeywords : list string) : Recommendation :=
  {| problem := "Missing industry-standard keywords";
     solution := ("Include relevant technical terms like: "
                  ++ JS.join ", " (JS.slice0 5 missingKeywords))%string;
     priority := "Medium";
     expectedImpact := "Improves ATS compatibility and keyword matching" |}.

Definition experienceRec : Recommendation :=
  {| problem := "Experience section needs improvement";
     solution := "Add more detailed descriptions of your roles, responsibilities, and achievements with specific examples";
     priority := "High";
     expectedImpact := "Better demonstrates your professional value and career progression" |}.

Definition skillsRec : Recommendation :=
  {| problem := "Skills section is underdeveloped";
     solution := "List specific technologies, tools, methodologies, and frameworks you're proficient in with proficiency levels";
     priority := "High";
     expectedImpact := "Helps recruiters quickly assess your technical fit for positions" |}.

Definition achievementsRec : Recommendation :=
  {| problem := "Limited quantified achievements";
     solution := "Include specific metrics and results from your work (e.g., 'Delivered project 2 weeks ahead of schedule', 'Improved system performance by 35%')";
     priority := "Medium";
     expectedImpact := "Demonstrates measurable impact and results-oriented mindset" |}.

Definition formattingRec : Recommendation :=
  {| problem := "Formatting and structure need improvement";
     solution := "Use consistent formatting, bullet points, clear section headings, and professional layout";
     priority := "Medium";
     expectedImpact := "Improves readability and makes your resume more scanner-friendly" |}.

Definition generateRecommendations (resumeText : string) (sections : Sections)
    : list Recommendation :=
  let recommendations := [] in
  let tokens := preprocessText resumeText in
  let hasQuantification := Regex.test Patterns.quantificationSignal resumeText in
  let recommendations :=
    pushIf (negb hasQuantification) recommendations lacksQuantification in
  let missingKeywords :=
    fold_left (fun missingKeywords entry =>
                 let keywords := snd entry in
                 let matches := matchedKeywords keywords tokens in
                 if (List.length matches <? 2)%nat
                 then missingKeywords ++ JS.slice0 3 keywords
                 else missingKeywords)
              industryKeywords [] in
  let recommendations :=
    pushIf (0 <? List.length missingKeywords)%nat recommendations
           (missingKeywordsRec missingKeywords) in
  let recommendations := pushIf (experience sections <? 60) recommendations experienceRec in
  let recommendations := pushIf (skills sections <? 50) recommendations skillsRec in
  let recommendations := pushIf (achievements sections <? 40) recommendations achievementsRec in
  let recommendations := pushIf (formatting sections <? 50) recommendations formattingRec in
  JS.slice0 6 recommendations.

(** *** Industry detection

    [generateRoadmap] and [suggestRoles] each carry this loop, word for
    word, over their own [industryIndicators] table: the state is
    [(primaryIndustry, maxMatches)]. *)

Definition indicatorMatches (keywords : list string) (tokens : list string) : Z :=
  Z.of_nat (List.length (matchedKeywords keywords tokens)).

Definition detectStep (tokens : list string) (state : string * Z)
    (entry : string * list string) : string * Z :=
  let matches := indicatorMatches (snd entry) tokens in
  if snd state <? matches then (fst entry, matches) else state.

Definition detectIndustry (industryIndicators : list (string * list string))
    (tokens : list string) : string :=
  fst (fold_left (detectStep tokens) industryIndicators ("general", 0)).

(** *** Roadmap *)

Definition leadershipStep : RoadmapItem :=
  {| title := "Develop Leadership and Management Skills";
     type := "learn";
     description := "Build team leadership, strategic planning, and decision-making capabilities" |}.

Definition certificationStep : RoadmapItem :=
  {| title := "Pursue Professional Certifications";
     type := "milestone";
     description := "Obtain industry-recognized credentials to validate your expertise" |}.

Definition closingStep : RoadmapItem :=
  {| title := "Continuous Professional Development";
     type := "learn";
     description := "Commit to lifelong learning and skill enhancement in your field" |}.

(** The part of [generateRoadmap] after the template has been chosen. *)
Definition assembleRoadmap (baseRoadmap : list RoadmapItem) (sections : Sections)
    : list RoadmapItem :=
  let roadmap := [] in
  let roadmap := roadmap ++ baseRoadmap in
  let roadmap := pushIf (70 <? experience sections) roadmap leadershipStep in
  let roadmap := pushIf (60 <? skills sections) roadmap certificationStep in
  let roadmap := roadmap ++ [closingStep] in
  JS.slice0 6 roadmap.

Definition generateRoadmap (resumeText : string) (sections : Sections)
    : list RoadmapItem :=
  let tokens := preprocessText resumeText in
  let primaryIndustry := detectIndustry roadmapIndicators tokens in
  let baseRoadmap := lookupOr primaryIndustry "general" industryRoadmaps in
  assembleRoadmap baseRoadmap sections.

(** *** Experience level, primary skills *)

Definition classifyExperienceLevel (experienceScore : Z) (text : string) : string :=
  let matches := Regex.matchAll Patterns.years text in
  let years :=
    match matches with
    | [] => Some 0
    | _ :: _ => Math_max (map parseInt matches)
    end in
  if atLeast years 5 || (80 <=? experienceScore) then "Senior Level"
  else if atLeast years 2 || (60 <=? experienceScore) then "Mid Level"
  else "Entry Level".

Definition detectPrimarySkills (text : string) : list string :=
  let tokens := preprocessText text in
  let skillCounts :=
    fold_left
      (fun skillCounts entry =>
         fold_left
           (fun skillCounts keyword =>
              let matches := countIf (fun token => matchesKeyword token keyword) tokens in
              if 0 <? matches
              then setProp keyword
                     (match lookup keyword skillCounts with
                      | Some n => n
                      | None => 0
                      end + matches) skillCounts
              else skillCounts)
           (snd entry) skillCounts)
      skillCategories [] in
  map fst (JS.slice0 8 (sortByCount skillCounts)).

(** *** Roles *)

(** [baseRoles.forEach((baseRole, index) => ...)], from [index] on *)
Fixpoint roleTitles (prefixed : bool) (expPrefixes : list string) (index : nat)
    (baseRoles : list string) : list string :=
  match baseRoles with
  | [] => []
  | baseRole :: rest =>
      (if (index <? 3)%nat
       then if prefixed && (index <? List.length expPrefixes)%nat
            then [(nth index expPrefixes "" ++ " " ++ baseRole)%string]
            else [baseRole]
       else [])
      ++ roleTitles prefixed expPrefixes (S index) rest
  end.

(** The titles pushed into [roles] before duplicates are removed. *)
Definition rolesPushed (primaryIndustry : string) (sections : Sections) : list string :=
  let experienceLevel :=
    if 70 <=? experience sections then "senior"
    else if 40 <=? experience sections then "mid" else "entry" in
  let baseRoles := lookupOr primaryIndustry "general" industryRoles in
  let expPrefixes := lookupOr experienceLevel "entry" experienceRoles in
  let roles := roleTitles (negb (experienceLevel =? "entry")%string) expPrefixes 0 baseRoles in
  roles ++ ["Professional"; "Specialist"].

Definition suggestRoles (this : Analyzer) (sections : Sections)
    (primarySkills : list string) : list string :=
  let tokens :=
    preprocessText (match lastResumeText this with
                    | Some text => text
                    | None => ""
                    end) in
  let primaryIndustry := detectIndustry roleIndicators tokens in
  JS.slice0 8 (JS.Set_of (rolesPushed primaryIndustry sections)).

(** *** Salary *)

Definition multiplier (score : float) : float :=
  JS.Math_min 1 (score / 100 + 0.2)%float.

(** [baseRanges[experienceLevel] || baseRanges['Entry Level']].  The property
    access follows the prototype chain.  An own key gives its band.  The name
    of an inherited property gives that property: it is truthy, so [||] keeps
    it, and its [min] and [max] are [undefined], which the multiplications of
    [salaryBounds] convert to NaN.  For every other name the access gives
    [undefined] and the Entry band is taken. *)
Definition salaryBand (experienceLevel : string) : Range :=
  match lookup experienceLevel baseRanges with
  | Some r => r
  | None =>
      if existsb (String.eqb experienceLevel) inheritedProperties
      then {| min := PrimFloat.nan; max := PrimFloat.nan |}
      else
        match lookup "Entry Level" baseRanges with
        | Some r => r
        | None => {| min := PrimFloat.nan; max := PrimFloat.nan |}
        end
  end.

(** The two bounds printed in [range]. *)
Definition salaryBounds (score : float) (experienceLevel : string) : float * float :=
  let range := salaryBand experienceLevel in
  (JS.Math_round (min range * multiplier score)%float,
   JS.Math_round (max range * multiplier score)%float).

Definition estimateSalary (score : float) (experienceLevel : string) : Salary :=
  let bounds := salaryBounds score experienceLevel in
  {| range := ("$" ++ toLocaleString (fst bounds)
               ++ " - $" ++ toLocaleString (snd bounds))%string;
     justification := ("Based on " ++ JS.toLowerCase experienceLevel
                       ++ " experience and comprehensive skill assessment score of "
                       ++ numberToString score)%string |}.

(** *** The main analysis function *)

Definition overallScore (sections : Sections) : float :=
  JS.Math_round
    (JS.number (skills sections) * 0.25 +
     JS.number (experience sections) * 0.25 +
     JS.number (education sections) * 0.15 +
     JS.number (projects sections) * 0.15 +
     JS.number (achievements sections) * 0.10 +
     JS.number (formatting sections) * 0.10)%float.

(** [!resumeText || resumeText.trim().length < 100] *)
Definition tooShort (resumeText : string) : bool :=
  (resumeText =? "")%string || (String.length (JS.trim resumeText) <? 100)%nat.

(** The body of the [try] block.  The source also calls [extractFeatures]
    here and does not use its result. *)
Definition analyze (this : Analyzer) (resumeText : string) : Outcome :=
  if tooShort resumeText then Rejected "Resume content is too short or empty"
  else
    let sections := scoreSections resumeText in
    let overallScore := overallScore sections in
    let recommendations := generateRecommendations resumeText sections in
    let roadmap := generateRoadmap resumeText sections in
    let experienceLevel := classifyExperienceLevel (experience sections) resumeText in
    let primarySkills := detectPrimarySkills resumeText in
    Resolved
      {| overall := overallScore;
         scores := sections;
         experienceLevel := experienceLevel;
         primarySkills := primarySkills;
         detailedRecommendations := recommendations;
         roadmap := roadmap;
         targetRoles := suggestRoles this sections primarySkills;
         salaryExpectation := estimateSalary overallScore experienceLevel |}.

(** [analyzeResume]: the text is stored on the instance, the body runs, and
    whatever it throws is caught and thrown again under a new message. *)
Definition analyzeResume (this : Analyzer) (resumeText : string) : Analyzer * Outcome :=
  let this := {| lastResumeText := Some resumeText |} in
  (this,
   match analyze this resumeText with
   | Resolved report => Resolved report
   | Rejected message => Rejected ("Failed to analyze resume: " ++ message)%string
   end).

End Analyzer.

(** ** The binary64 values the weighted sum can take

    The sum of [overallScore] is evaluated left to right; every section
    score is an integer of 0..100.  [afterK] lists, for each exact value [n]
    (in hundredths) of the first [K] terms, the binary64 values the partial
    sum can have. *)

Module Reach.

Definition table : Type := PositiveMap.t (list float).

Definition key (n : Z) : positive := Z.to_pos (n + 1).

Definition bucket (m : table) (n : Z) : list float :=
  match PositiveMap.find (key n) m with
  | Some l => l
  | None => []
  end.

Definition member (x : float) (l : list float) : bool :=
  existsb (PrimFloat.Leibniz.eqb x) l.

Definition record (m : table) (n : Z) (x : float) : table :=
  if member x (bucket m n) then m else PositiveMap.add (key n) (x :: bucket m n) m.

(** The integers [n], [n + 1], ... ([fuel] of them), and those of 0..[bound] *)
Fixpoint countUp (fuel : nat) (n : Z) : list Z :=
  match fuel with
  | O => []
  | S fuel' => n :: countUp fuel' (n + 1)
  end.

Definition upto (bound : Z) : list Z := countUp (S (Z.to_nat bound)) 0.

(** The section scores 0..100, and the values the scorers can return:
    [min(100, 8a + 6b)] is even, [min(100, 10a + 5b)] is a multiple of 5,
    [min(100, 15a)] and [min(100, 20a)] are in the two lists below, and the
    formatting score is one of eight sums. *)
Definition values : list Z := upto 100.
Definition evens : list Z := map (Z.mul 2) (upto 50).
Definition fives : list Z := map (Z.mul 5) (upto 20).
Definition fifteens : list Z := [0; 15; 30; 45; 60; 75; 90; 100].
Definition twenties : list Z := [0; 20; 40; 60; 80; 100].
Definition layouts : list Z := [35; 45; 50; 60; 65; 75; 80; 90].

Definition firstTwo (s e : Z) : float := (JS.number s * 0.25 + JS.number e * 0.25)%float.

Definition addTerm (w : float) (t : float) (v : Z) : float := (t + JS.number v * w)%float.

Definition start (ss es : list Z) : table :=
  fold_left (fun m s => fold_left (fun m e => record m (25 * s + 25 * e) (firstTwo s e)) es m)
            ss (PositiveMap.empty _).

Definition extend (vs : list Z) (w : float) (wi : Z) (bound : Z) (m : table) : table :=
  fold_left
    (fun acc n =>
       fold_left
         (fun acc t => fold_left (fun acc v => record acc (n + wi * v) (addTerm w t v)) vs acc)
         (bucket m n) acc)
    (upto bound) (PositiveMap.empty _).

(** For section scores anywhere in 0..100 *)
Definition after2 : table := Eval vm_compute in start values values.
Definition after3 : table := Eval vm_compute in extend values 0.15 15 5000 after2.
Definition after4 : table := Eval vm_compute in extend values 0.15 15 6500 after3.
Definition after5 : table := Eval vm_compute in extend values 0.10 10 8000 after4.
Definition after6 : table := Eval vm_compute in extend values 0.10 10 9000 after5.

(** For the section scores the scorers return *)
Definition scored2 : table := Eval vm_compute in start evens fives.
Definition scored3 : table := Eval vm_compute in extend fifteens 0.15 15 5000 scored2.
Definition scored4 : table := Eval vm_compute in extend twenties 0.15 15 6500 scored3.
Definition scored5 : table := Eval vm_compute in extend fives 0.10 10 8000 scored4.
Definition scored6 : table := Eval vm_compute in extend layouts 0.10 10 9000 scored5.

(** The checks run on these tables. *)
Definition startCovered (ss es : list Z) (m : table) : bool :=
  forallb (fun s => forallb (fun e => member (firstTwo s e) (bucket m (25 * s + 25 * e))) es)
          ss.

Definition closed (vs : list Z) (w : float) (wi : Z) (bound : Z) (m m' : table) : bool :=
  forallb
    (fun n =>
       forallb
         (fun t => forallb (fun v => member (addTerm w t v) (bucket m' (n + wi * v))) vs)
         (bucket m n))
    (upto bound).

(** [Math.round x] is an integer [r] with [|r - n/100| <= 1/2]. *)
Definition roundsTo (n : Z) (x : float) : bool :=
  existsb (fun r => PrimFloat.Leibniz.eqb (JS.Math_round x) (JS.number r)
                    && (Z.abs (100 * r - n) <=? 50))
          [n / 100; n / 100 + 1].

Definition allRounded (m : table) : bool :=
  forallb (fun n => forallb (roundsTo n) (bucket m n)) (upto 10000).

(** [Math.round x] is [n/100] rounded half up. *)
Definition roundsHalfUp (n : Z) (x : float) : bool :=
  PrimFloat.Leibniz.eqb (JS.Math_round x) (JS.number ((n + 50) / 100)).

Definition allHalfUp (m : table) : bool :=
  forallb (fun n => forallb (roundsHalfUp n) (bucket m n)) (upto 10000).

End Reach.

(** ** Notions used in the statements *)

(** A valid input of [analyzeResume]: not empty, and at least 100
    characters once trimmed. *)
Definition validInput (resumeText : string) : Prop :=
  resumeText <> "" /\ (100 <= String.length (JS.trim resumeText))%nat.

(** Every section score lies in 0..100. *)
Definition inRange (s : Sections) : Prop :=
  0 <= skills s <= 100 /\ 0 <= experience s <= 100 /\ 0 <= education s <= 100 /\
  0 <= projects s <= 100 /\ 0 <= formatting s <= 100 /\ 0 <= achievements s <= 100.

(** Every section score is a value its scorer can return. *)
Definition scorable (s : Sections) : Prop :=
  In (skills s) Reach.evens /\ In (experience s) Reach.fives
  /\ In (education s) Reach.fifteens /\ In (projects s) Reach.twenties
  /\ In (achievements s) Reach.fives /\ In (formatting s) Reach.layouts.

(** The weighted sum of the section scores, exactly, in hundredths:
    [skills*0.25 + experience*0.25 + education*0.15 + projects*0.15 +
    achievements*0.10 + formatting*0.10], times 100. *)
Definition weightedHundredths (s : Sections) : Z :=
  25 * skills s + 25 * experience s + 15 * education s + 15 * projects s
  + 10 * achievements s + 10 * formatting s.

(** A list with every occurrence of an element after its first one erased. *)
Fixpoint keepFirst (l : list string) : list string :=
  match l with
  | [] => []
  | x :: rest => x :: filter (fun y => negb (y =? x)%string) (keepFirst rest)
  end.

(** [l] can be obtained from [l'] by erasing elements. *)
Fixpoint subsequence (l l' : list string) : bool :=
  match l, l' with
  | [], _ => true
  | _ :: _, [] => false
  | x :: r, y :: r' => if (x =? y)%string then subsequence r r' else subsequence l r'
  end.

(** An instance of the environment: the word tokenizer of [natural], no
    stopword removed, every token its own stem, numbers printed as digits
    and NaN as [NaN]. *)
Definition digitsOf (x : float) : string :=
  match Prim2SF x with
  | S754_finite false m e =>
      if 0 <=? e then NilZero.string_of_uint (N.to_uint (N.pos m * 2 ^ Z.to_N e))
      else NilZero.string_of_uint (N.to_uint (N.pos m / 2 ^ Z.to_N (- e)))
  | S754_nan => "NaN"
  | _ => "0"
  end.

#[local] Instance plainLibrary : Library := {|
  tokenize := Natural.WordTokenizer_tokenize;
  removeStopwords := fun tokens => tokens;
  stem := fun token => token;
  toLocaleString := digitsOf;
  numberToString := digitsOf
|}.

Definition freshAnalyzer : Analyzer := {| lastResumeText := None |}.

Definition newlineChar : string := String (ascii_of_nat 10) "".

(** The order in which the industries are visited. *)
Definition industryOrder : list string :=
  ["technology"; "business"; "healthcare"; "education"; "engineering"; "creative";
   "service"; "legal"; "government"; "finance"].

(** [result] is what a first-maximum search over [table] returns: the
    fallback [general] when no industry has a matching indicator keyword, and
    otherwise the first entry, in table order, whose number of matching
    keywords is the largest of the table. *)
Definition firstMaximum (tokens : list string) (table : list (string * list string))
    (result : string) : Prop :=
  ((forall e, In e table -> indicatorMatches (snd e) tokens = 0) /\ result = "general")
  \/ (exists pre e post,
        table = pre ++ e :: post
        /\ result = fst e
        /\ 0 < indicatorMatches (snd e) tokens
        /\ (forall x, In x pre ->
              indicatorMatches (snd x) tokens < indicatorMatches (snd e) tokens)
        /\ (forall x, In x post ->
              indicatorMatches (snd x) tokens <= indicatorMatches (snd e) tokens)).

(** Entry by entry, the two tables name the same industry and the keywords
    of the first are among those of the second. *)
Definition nested (t t' : list (string * list string)) : bool :=
  (List.length t =? List.length t')%nat
  && forallb (fun p => (fst (fst p) =? fst (snd p))%string
                       && subsequence (snd (fst p)) (snd (snd p)))
             (combine t t').




(** The steps added after the template, before the closing one. *)
Definition conditionalSteps (sections : Sections) : list RoadmapItem :=
  (if 70 <? experience sections then [leadershipStep] else [])
  ++ (if 60 <? skills sections then [certificationStep] else []).

(** Every character of [s] satisfies [p]. *)
Fixpoint everyChar (p : ascii -> bool) (s : string) : bool :=
  match s with
  | EmptyString => true
  | String c s' => p c && everyChar p s'
  end.

(** The verbs of [Patterns.quantificationSignal] *)
Definition quantificationVerbs : list string :=
  ["increase"; "decrease"; "improve"; "reduce"; "save"; "generate"].

(** A digit, a plus sign, a percent sign or a dollar sign *)
Definition signalChar (c : ascii) : bool :=
  JS.isDigit c || JS.isCode 43 c || JS.isCode 37 c || JS.isCode 36 c.

(** [v] starts [s], letter case apart *)
Fixpoint prefixI (v s : string) : bool :=
  match v, s with
  | EmptyString, _ => true
  | String _ _, EmptyString => false
  | String c v', String a s' =>
      Ascii.eqb (Regex.foldCase a) (Regex.foldCase c) && prefixI v' s'
  end.

Definition allAscii : list ascii := map ascii_of_nat (seq 0 256).

Definition lowercaseLetters : list ascii := list_ascii_of_string "abcdefghijklmnopqrstuvwxyz".

(** Sample inputs. *)
Definition sampleResume : string :=
  ("Jane Roe" ++ newlineChar
   ++ "Registered nurse with 6 years of clinical experience in hospital care." ++ newlineChar
   ++ "EXPERIENCE: Charge nurse, City Hospital. Reduced waiting time by 30%." ++ newlineChar
   ++ "EDUCATION: Bachelor of Science in Nursing, State University")%string.

(** A resume with a plus sign and no digit, percent sign, dollar sign or
    quantification verb. *)
Definition plusResume : string :=
  "Experienced C++ developer. Wrote compilers and tools, led teams, mentored colleagues and shipped products on time.".

(** A resume whose only words are [python]. *)
Definition pythonResume : string :=
  "python python python python python python python python python python python python python python python".

(** Exactly 100 characters, none of them blank at either end. *)
Definition hundredCharacters : string :=
  "Teacher of mathematics and physics at a public school, tutoring pupils and preparing course material".

(** A template of four steps, to exercise the cut of [assembleRoadmap]. *)
Definition fourSteps : list RoadmapItem :=
  lookupOr "technology" "general" industryRoadmaps ++ [leadershipStep].

(** * Properties *)

(** ** The primitives on small inputs *)

Example trim_blanks : JS.trim "  ab c   " = "ab c".
Proof. reflexivity. Qed.

Example includes_either_way :
  JS.includes "javascript" "java" = true /\ JS.includes "java" "javascript" = false
  /\ matchesKeyword "java" "javascript" = true /\ matchesKeyword "react" "React Native" = true.
Proof. repeat split; reflexivity. Qed.

Example round_ties_up :
  JS.Math_round 2.5 = 3%float /\ JS.Math_round (-2.5) = (-2)%float
  /\ JS.Math_round 67.49999999999999 = 67%float.
Proof. repeat split; reflexivity. Qed.

Example time_expressions :
  Regex.matchAll Patterns.time "5 years, 12   YRS, 3yearsx; Present, 7 months"
  = ["5 years"; "12   YRS"; "3years"; "Present"; "month"].
Proof. vm_compute. reflexivity. Qed.

Example years_between_word_boundaries :
  Regex.matchAll Patterns.years "5 years, 12   YRS, 3yearsx, a5 years, 7 yr."
  = ["5 years"; "12   YRS"; "7 yr"].
Proof. vm_compute. reflexivity. Qed.

Example capitalized_words :
  Regex.matchAll Patterns.capitalized "Hello WOrld aBc Xy Z" = ["Hello"; "Orld"; "Bc"; "Xy"].
Proof. vm_compute. reflexivity. Qed.

Example classify_by_years_or_score :
  classifyExperienceLevel 0 "worked 6 years there" = "Senior Level"
  /\ classifyExperienceLevel 60 "no duration given" = "Mid Level"
  /\ classifyExperienceLevel 59 "1 year" = "Entry Level".
Proof. repeat split; vm_compute; reflexivity. Qed.

Example sort_is_stable :
  sortByCount [("a", 1); ("b", 3); ("c", 1); ("d", 3); ("e", 2)]
  = [("b", 3); ("d", 3); ("e", 2); ("a", 1); ("c", 1)].
Proof. reflexivity. Qed.

Example set_keeps_first_occurrences :
  JS.Set_of ["Specialist"; "Professional"; "Specialist"; "Lead"; "Professional"]
  = ["Specialist"; "Professional"; "Lead"].
Proof. reflexivity. Qed.

Example word_tokens :
  Natural.WordTokenizer_tokenize "led a team_of 5 (five) engineers. ci/cd"
  = ["led"; "a"; "team_of"; "5"; "five"; "engineers"; "ci"; "cd"].
Proof. vm_compute. reflexivity. Qed.

Example healthcare_tokens :
  detectIndustry roadmapIndicators ["nurs"; "clinic"; "patient"] = "healthcare"
  /\ detectIndustry roleIndicators ["nurs"; "clinic"; "patient"] = "healthcare".
Proof. split; vm_compute; reflexivity. Qed.

Example mid_level_roles :
  rolesPushed "general"
    {| skills := 0; experience := 40; education := 0; projects := 0; formatting := 0;
       achievements := 0 |}
  = ["Specialist Professional"; "Coordinator Specialist"; "Analyst Coordinator";
     "Professional"; "Specialist"].
Proof. reflexivity. Qed.

(** ** The weighted sum *)

Lemma Reach_start_covered :
  Reach.startCovered Reach.values Reach.values Reach.after2 = true.
Proof. vm_compute. reflexivity. Qed.

Lemma Reach_closed_3 :
  Reach.closed Reach.values 0.15 15 5000 Reach.after2 Reach.after3 = true.
Proof. vm_compute. reflexivity. Qed.

Lemma Reach_closed_4 :
  Reach.closed Reach.values 0.15 15 6500 Reach.after3 Reach.after4 = true.
Proof. vm_compute. reflexivity. Qed.

Lemma Reach_closed_5 :
  Reach.closed Reach.values 0.10 10 8000 Reach.after4 Reach.after5 = true.
Proof. vm_compute. reflexivity. Qed.

Lemma Reach_closed_6 :
  Reach.closed Reach.values 0.10 10 9000 Reach.after5 Reach.after6 = true.
Proof. vm_compute. reflexivity. Qed.

Lemma Reach_all_rounded : Reach.allRounded Reach.after6 = true.
Proof. vm_compute. reflexivity. Qed.

Lemma Scored_start_covered :
  Reach.startCovered Reach.evens Reach.fives Reach.scored2 = true.
Proof. vm_compute. reflexivity. Qed.

Lemma Scored_closed_3 :
  Reach.closed Reach.fifteens 0.15 15 5000 Reach.scored2 Reach.scored3 = true.
Proof. vm_compute. reflexivity. Qed.

Lemma Scored_closed_4 :
  Reach.closed Reach.twenties 0.15 15 6500 Reach.scored3 Reach.scored4 = true.
Proof. vm_compute. reflexivity. Qed.

Lemma Scored_closed_5 :
  Reach.closed Reach.fives 0.10 10 8000 Reach.scored4 Reach.scored5 = true.
Proof. vm_compute. reflexivity. Qed.

Lemma Scored_closed_6 :
  Reach.closed Reach.layouts 0.10 10 9000 Reach.scored5 Reach.scored6 = true.
Proof. vm_compute. reflexivity. Qed.

Lemma Scored_all_half_up : Reach.allHalfUp Reach.scored6 = true.
Proof. vm_compute. reflexivity. Qed.

Lemma member_In (x : float) (l : list float) : Reach.member x l = true -> In x l.
Proof.
  unfold Reach.member. intros H. apply existsb_exists in H.
  destruct H as [y [Hy Heq]]. apply FloatAxioms.Leibniz.eqb_spec in Heq. now subst.
Qed.

Lemma In_countUp (fuel : nat) :
  forall start n, start <= n < start + Z.of_nat fuel -> In n (Reach.countUp fuel start).
Proof.
  induction fuel as [| fuel IH]; intros start n H; [ lia | ].
  cbn [Reach.countUp]. destruct (Z.eq_dec start n) as [-> | Hne]; [ now left | ].
  right. apply IH. lia.
Qed.

Lemma In_upto (bound : Z) (n : Z) : 0 <= n <= bound -> In n (Reach.upto bound).
Proof. intros H. unfold Reach.upto. apply In_countUp. lia. Qed.

Lemma start_sound (ss es : list Z) (m : Reach.table) :
  Reach.startCovered ss es m = true ->
  forall s e, In s ss -> In e es ->
  In (Reach.firstTwo s e) (Reach.bucket m (25 * s + 25 * e)).
Proof.
  unfold Reach.startCovered. intros H s e Hs He.
  rewrite forallb_forall in H. specialize (H s Hs).
  rewrite forallb_forall in H. specialize (H e He).
  now apply member_In.
Qed.

Lemma closed_sound (vs : list Z) (w : float) (wi : Z) (bound : Z) (m m' : Reach.table) :
  Reach.closed vs w wi bound m m' = true ->
  forall n t v, 0 <= n <= bound -> In t (Reach.bucket m n) -> In v vs ->
  In (Reach.addTerm w t v) (Reach.bucket m' (n + wi * v)).
Proof.
  unfold Reach.closed. intros H n t v Hn Ht Hv.
  rewrite forallb_forall in H. specialize (H n (In_upto bound n Hn)).
  rewrite forallb_forall in H. specialize (H t Ht).
  rewrite forallb_forall in H. specialize (H v Hv).
  now apply member_In.
Qed.

Lemma rounded_sound (m : Reach.table) :
  Reach.allRounded m = true ->
  forall n t, 0 <= n <= 10000 -> In t (Reach.bucket m n) ->
  exists r, JS.Math_round t = JS.number r /\ Z.abs (100 * r - n) <= 50.
Proof.
  unfold Reach.allRounded. intros H n t Hn Ht.
  rewrite forallb_forall in H. specialize (H n (In_upto 10000 n Hn)).
  rewrite forallb_forall in H. specialize (H t Ht).
  unfold Reach.roundsTo in H. apply existsb_exists in H.
  destruct H as [r [_ Hr]]. apply andb_true_iff in Hr. destruct Hr as [Heq Hle].
  exists r. split.
  - now apply FloatAxioms.Leibniz.eqb_spec.
  - now apply Z.leb_le.
Qed.

Lemma halfUp_sound (m : Reach.table) :
  Reach.allHalfUp m = true ->
  forall n t, 0 <= n <= 10000 -> In t (Reach.bucket m n) ->
  JS.Math_round t = JS.number ((n + 50) / 100).
Proof.
  unfold Reach.allHalfUp. intros H n t Hn Ht.
  rewrite forallb_forall in H. specialize (H n (In_upto 10000 n Hn)).
  rewrite forallb_forall in H. specialize (H t Ht).
  now apply FloatAxioms.Leibniz.eqb_spec.
Qed.

(** Runs through the members of a list given in full. *)
Ltac each_member H tac :=
  repeat (destruct H as [<- | H]; [ tac | ]); destruct H.

Lemma In_values (v : Z) : 0 <= v <= 100 -> In v Reach.values.
Proof. apply In_upto. Qed.

Lemma In_evens (v : Z) : In v Reach.evens -> 0 <= v <= 100.
Proof. intros H. vm_compute in H. each_member H lia. Qed.

Lemma In_fives (v : Z) : In v Reach.fives -> 0 <= v <= 100.
Proof. intros H. vm_compute in H. each_member H lia. Qed.

Lemma In_fifteens (v : Z) : In v Reach.fifteens -> 0 <= v <= 100.
Proof. intros H. cbv in H. each_member H lia. Qed.

Lemma In_twenties (v : Z) : In v Reach.twenties -> 0 <= v <= 100.
Proof. intros H. cbv in H. each_member H lia. Qed.

Lemma In_layouts (v : Z) : In v Reach.layouts -> 0 <= v <= 100.
Proof. intros H. cbv in H. each_member H lia. Qed.

Lemma scorable_inRange (s : Sections) : scorable s -> inRange s.
Proof.
  intros (Hs & He & Hd & Hp & Ha & Hf). unfold inRange.
  pose proof (In_evens _ Hs). pose proof (In_fives _ He). pose proof (In_fifteens _ Hd).
  pose proof (In_twenties _ Hp). pose proof (In_fives _ Ha). pose proof (In_layouts _ Hf).
  tauto.
Qed.

(** For section scores anywhere in 0..100, the overall score is an integer
    within one half of the exact weighted sum. *)
Lemma overallScore_nearest (s : Sections) :
  inRange s ->
  exists r, overallScore s = JS.number r /\ Z.abs (100 * r - weightedHundredths s) <= 50.
Proof.
  intros (Hs & He & Hd & Hp & Hf & Ha).
  pose proof (start_sound _ _ _ Reach_start_covered _ _ (In_values _ Hs) (In_values _ He))
    as H2.
  apply (closed_sound _ _ _ _ _ _ Reach_closed_3) with (v := education s) in H2;
    [ | lia | now apply In_values ].
  apply (closed_sound _ _ _ _ _ _ Reach_closed_4) with (v := projects s) in H2;
    [ | lia | now apply In_values ].
  apply (closed_sound _ _ _ _ _ _ Reach_closed_5) with (v := achievements s) in H2;
    [ | lia | now apply In_values ].
  apply (closed_sound _ _ _ _ _ _ Reach_closed_6) with (v := formatting s) in H2;
    [ | lia | now apply In_values ].
  apply (rounded_sound _ Reach_all_rounded) in H2; [ | lia ].
  destruct H2 as [r [Hr Hn]].
  exists r. split.
  - exact Hr.
  - unfold weightedHundredths. exact Hn.
Qed.

(** For the section scores the scorers return, the overall score is the
    exact weighted sum rounded half up. *)
Lemma overallScore_halfUp (s : Sections) :
  scorable s ->
  overallScore s = JS.number ((weightedHundredths s + 50) / 100).
Proof.
  intros Hsc. pose proof (scorable_inRange s Hsc) as (Rs & Re & Rd & Rp & Rf & Ra).
  destruct Hsc as (Hs & He & Hd & Hp & Ha & Hf).
  pose proof (start_sound _ _ _ Scored_start_covered _ _ Hs He) as H2.
  apply (closed_sound _ _ _ _ _ _ Scored_closed_3) with (v := education s) in H2;
    [ | lia | exact Hd ].
  apply (closed_sound _ _ _ _ _ _ Scored_closed_4) with (v := projects s) in H2;
    [ | lia | exact Hp ].
  apply (closed_sound _ _ _ _ _ _ Scored_closed_5) with (v := achievements s) in H2;
    [ | lia | exact Ha ].
  apply (closed_sound _ _ _ _ _ _ Scored_closed_6) with (v := formatting s) in H2;
    [ | lia | exact Hf ].
  apply (halfUp_sound _ Scored_all_half_up) in H2; [ | lia ].
  exact H2.
Qed.

(** ** Section scores *)

Lemma countIf_nonneg {A : Type} (p : A -> bool) (arr : list A) : 0 <= countIf p arr.
Proof. unfold countIf. lia. Qed.

Lemma Regex_count_nonneg (r : Regex.regex) (s : string) : 0 <= Regex.count r s.
Proof. unfold Regex.count. lia. Qed.

Lemma fold_max_nonneg {A : Type} (f : A -> Z) (l : list A) (init : Z) :
  0 <= init -> 0 <= fold_left (fun acc x => Z.max acc (f x)) l init.
Proof.
  revert init. induction l as [| x l IH]; intros init Hinit; simpl.
  - exact Hinit.
  - apply IH. lia.
Qed.

Lemma clamp_range (v : Z) : 0 <= v -> 0 <= Z.min 100 v <= 100.
Proof. lia. Qed.

Lemma In_evens_shape (a b : Z) :
  0 <= a -> 0 <= b -> In (Z.min 100 (a * 8 + b * 6)) Reach.evens.
Proof.
  intros Ha Hb. unfold Reach.evens. apply in_map_iff.
  exists (Z.min 50 (a * 4 + b * 3)). split; [ lia | apply In_upto; lia ].
Qed.

Lemma In_fives_shape (a b : Z) :
  0 <= a -> 0 <= b -> In (Z.min 100 (a * 10 + b * 5)) Reach.fives.
Proof.
  intros Ha Hb. unfold Reach.fives. apply in_map_iff.
  exists (Z.min 20 (a * 2 + b)). split; [ lia | apply In_upto; lia ].
Qed.

Lemma In_fifteens_shape (a : Z) : 0 <= a -> In (Z.min 100 (a * 15)) Reach.fifteens.
Proof.
  intros Ha.
  assert (H : a = 0 \/ a = 1 \/ a = 2 \/ a = 3 \/ a = 4 \/ a = 5 \/ a = 6 \/ 7 <= a) by lia.
  unfold Reach.fifteens.
  destruct H as [-> | [-> | [-> | [-> | [-> | [-> | [-> | H]]]]]]]; cbn; auto 10.
  replace (Z.min 100 (a * 15)) with 100 by lia. auto 10.
Qed.

Lemma In_twenties_shape (a : Z) : 0 <= a -> In (Z.min 100 (a * 20)) Reach.twenties.
Proof.
  intros Ha.
  assert (H : a = 0 \/ a = 1 \/ a = 2 \/ a = 3 \/ a = 4 \/ 5 <= a) by lia.
  unfold Reach.twenties.
  destruct H as [-> | [-> | [-> | [-> | [-> | H]]]]]; cbn; auto 10.
  replace (Z.min 100 (a * 20)) with 100 by lia. auto 10.
Qed.

Section Scores.

Context {lib : Library}.

Lemma mentions_nonneg (patterns tokens : list string) : 0 <= mentions patterns tokens.
Proof. apply countIf_nonneg. Qed.

Lemma scoreSkillsSection_range (text : string) : 0 <= scoreSkillsSection text <= 100.
Proof.
  unfold scoreSkillsSection. apply clamp_range.
  pose proof (mentions_nonneg
    ["skill"; "competency"; "proficiency"; "expertise"; "knowledge"; "ability"]
    (preprocessText text)) as Hm.
  pose proof (fold_max_nonneg (fun keywords => keywordTokens keywords (preprocessText text))
                (map snd skillCategories) 0 ltac:(lia)) as Ht.
  cbv zeta. lia.
Qed.

Lemma scoreExperienceSection_range (text : string) : 0 <= scoreExperienceSection text <= 100.
Proof.
  unfold scoreExperienceSection. apply clamp_range. cbv zeta.
  pose proof (mentions_nonneg
    ["experience"; "work"; "position"; "role"; "responsibility"; "duty"; "task"]
    (preprocessText text)).
  pose proof (Regex_count_nonneg Patterns.time text). lia.
Qed.

Lemma scoreEducationSection_range (text : string) : 0 <= scoreEducationSection text <= 100.
Proof.
  unfold scoreEducationSection. apply clamp_range. cbv zeta.
  pose proof (mentions_nonneg
    ["education"; "degree"; "university"; "college"; "bachelor"; "master"; "phd";
     "bs"; "ms"; "ba"; "ma"] (preprocessText text)). lia.
Qed.

Lemma scoreProjectsSection_range (text : string) : 0 <= scoreProjectsSection text <= 100.
Proof.
  unfold scoreProjectsSection. apply clamp_range. cbv zeta.
  pose proof (mentions_nonneg
    ["project"; "portfolio"; "built"; "developed"; "created"; "designed"; "implemented"]
    (preprocessText text)). lia.
Qed.

Lemma scoreFormatting_range (text : string) : 0 <= scoreFormatting text <= 100.
Proof.
  unfold scoreFormatting. apply clamp_range. cbv zeta.
  destruct (10 <? Regex.count Patterns.newline text);
    destruct (5 <? Regex.count Patterns.bullet text);
    destruct (3 <? Regex.count Patterns.colon text);
    destruct (20 <? Regex.count Patterns.capitalized text); lia.
Qed.

Lemma scoreAchievementsSection_range (text : string) :
  0 <= scoreAchievementsSection text <= 100.
Proof.
  unfold scoreAchievementsSection. apply clamp_range. cbv zeta.
  pose proof (mentions_nonneg
    ["achieve"; "award"; "recognition"; "certification"; "certified";
     "accomplishment"; "success"] (preprocessText text)).
  pose proof (Regex_count_nonneg Patterns.quantified text). lia.
Qed.

Lemma scoreSections_inRange (text : string) : inRange (scoreSections text).
Proof.
  unfold inRange, scoreSections; simpl.
  repeat split;
    first [ apply scoreSkillsSection_range | apply scoreExperienceSection_range
          | apply scoreEducationSection_range | apply scoreProjectsSection_range
          | apply scoreFormatting_range | apply scoreAchievementsSection_range ].
Qed.

Lemma scoreSections_scorable (text : string) : scorable (scoreSections text).
Proof.
  unfold scorable, scoreSections; cbn [skills experience education projects achievements
                                        formatting].
  split; [ | split; [ | split; [ | split; [ | split ] ] ] ].
  - unfold scoreSkillsSection. cbv zeta. apply In_evens_shape.
    + apply mentions_nonneg.
    + apply fold_max_nonneg with (f := fun keywords => keywordTokens keywords
                                                         (preprocessText text)). lia.
  - unfold scoreExperienceSection. cbv zeta. apply In_fives_shape.
    + apply mentions_nonneg.
    + apply Regex_count_nonneg.
  - unfold scoreEducationSection. cbv zeta. apply In_fifteens_shape, mentions_nonneg.
  - unfold scoreProjectsSection. cbv zeta. apply In_twenties_shape, mentions_nonneg.
  - unfold scoreAchievementsSection. cbv zeta.
    apply In_fives_shape.
    + apply mentions_nonneg.
    + apply Regex_count_nonneg.
  - unfold scoreFormatting, Reach.layouts. cbv zeta.
    destruct (10 <? Regex.count Patterns.newline text);
      destruct (5 <? Regex.count Patterns.bullet text);
      destruct (3 <? Regex.count Patterns.colon text);
      destruct (20 <? Regex.count Patterns.capitalized text); cbn; auto 10.
Qed.

(** *** Validation *)

Lemma tooShort_false_iff (text : string) : tooShort text = false <-> validInput text.
Proof.
  unfold tooShort, validInput. rewrite orb_false_iff, String.eqb_neq, Nat.ltb_ge.
  reflexivity.
Qed.

Lemma analyzeResume_valid (this : Analyzer) (text : string) :
  validInput text ->
  analyzeResume this text
  = ({| lastResumeText := Some text |},
     Resolved
       {| overall := overallScore (scoreSections text);
          scores := scoreSections text;
          experienceLevel :=
            classifyExperienceLevel (experience (scoreSections text)) text;
          primarySkills := detectPrimarySkills text;
          detailedRecommendations := generateRecommendations text (scoreSections text);
          roadmap := generateRoadmap text (scoreSections text);
          targetRoles :=
            suggestRoles {| lastResumeText := Some text |} (scoreSections text)
              (detectPrimarySkills text);
          salaryExpectation :=
            estimateSalary (overallScore (scoreSections text))
              (classifyExperienceLevel (experience (scoreSections text)) text) |}).
Proof.
  intros Hv. apply tooShort_false_iff in Hv.
  unfold analyzeResume, analyze. rewrite Hv. reflexivity.
Qed.

Lemma analyzeResume_invalid (this : Analyzer) (text : string) :
  ~ validInput text ->
  analyzeResume this text
  = ({| lastResumeText := Some text |},
     Rejected "Failed to analyze resume: Resume content is too short or empty").
Proof.
  intros Hv. rewrite <- tooShort_false_iff in Hv. apply not_false_is_true in Hv.
  unfold analyzeResume, analyze. rewrite Hv. reflexivity.
Qed.

End Scores.

Create HintDb scores discriminated.

#[export] Hint Resolve scoreSkillsSection_range scoreExperienceSection_range
  scoreEducationSection_range scoreProjectsSection_range scoreFormatting_range
  scoreAchievementsSection_range : scores.

(** ** The report of [analyzeResume] *)

Lemma halfUp_nearest (n : Z) : Z.abs (100 * ((n + 50) / 100) - n) <= 50.
Proof.
  pose proof (Z.div_mod (n + 50) 100 ltac:(lia)) as Hd.
  pose proof (Z.mod_pos_bound (n + 50) 100 ltac:(lia)) as Hm.
  lia.
Qed.

(** C1. For every valid input, the overall score returned by
    [analyzeResume] is the weighted sum
    [skills*0.25 + experience*0.25 + education*0.15 + projects*0.15 +
    achievements*0.10 + formatting*0.10] of the six section scores of the
    report, rounded to the nearest integer: it is the integer obtained by
    rounding the exact sum half up, whose distance to that sum is at most
    one half. *)
Theorem analyzeResume_overall_weighted_sum {lib : Library} (this : Analyzer)
    (resumeText : string) :
  validInput resumeText ->
  exists (report : Report) (r : Z),
    snd (analyzeResume this resumeText) = Resolved report
    /\ overall report = JS.number r
    /\ r = (weightedHundredths (scores report) + 50) / 100
    /\ Z.abs (100 * r - weightedHundredths (scores report)) <= 50.
Proof.
  intros Hv. rewrite (analyzeResume_valid this resumeText Hv). cbn [snd].
  eexists. eexists. split; [ reflexivity | ]. cbn [overall scores].
  split; [ apply overallScore_halfUp, scoreSections_scorable | ].
  split; [ reflexivity | ]. apply halfUp_nearest.
Qed.

(** The statement above, on [sampleResume]. *)
Lemma analyzeResume_overall_weighted_sum_witness :
  exists (report : Report) (r : Z),
    snd (analyzeResume (lib := plainLibrary) freshAnalyzer sampleResume) = Resolved report
    /\ overall report = JS.number r
    /\ r = (weightedHundredths (scores report) + 50) / 100
    /\ Z.abs (100 * r - weightedHundredths (scores report)) <= 50.
Proof.
  apply (analyzeResume_overall_weighted_sum (lib := plainLibrary) freshAnalyzer sampleResume).
  split.
  - vm_compute. discriminate.
  - vm_compute. lia.
Defined.

(** C2, as the code has it.  [analyzeResume] fails exactly when the input is
    empty or its trimmed length is below 100 characters; the error it then
    surfaces is the validation message behind the prefix every failure
    receives, ["Failed to analyze resume: "]; and an input of exactly 100
    trimmed characters succeeds. *)
Theorem analyzeResume_validation {lib : Library} (this : Analyzer) (resumeText : string) :
  ((exists message, snd (analyzeResume this resumeText) = Rejected message)
   <-> resumeText = "" \/ (String.length (JS.trim resumeText) < 100)%nat)
  /\ ((resumeText = "" \/ (String.length (JS.trim resumeText) < 100)%nat)
      -> snd (analyzeResume this resumeText)
         = Rejected ("Failed to analyze resume: " ++ "Resume content is too short or empty"))
  /\ (resumeText <> "" -> String.length (JS.trim resumeText) = 100%nat
      -> exists report, snd (analyzeResume this resumeText) = Resolved report).
Proof.
  assert (Hdec : validInput resumeText
                 \/ (resumeText = "" \/ (String.length (JS.trim resumeText) < 100)%nat)).
  { unfold validInput. destruct (string_dec resumeText "") as [-> | Hne].
    - right. now left.
    - destruct (Nat.lt_ge_cases (String.length (JS.trim resumeText)) 100).
      + right. now right.
      + left. now split. }
  assert (Hinv : (resumeText = "" \/ (String.length (JS.trim resumeText) < 100)%nat)
                 -> ~ validInput resumeText).
  { unfold validInput. intros [-> | Hlt] [Hne Hge]; [ now apply Hne | lia ]. }
  split; [ | split ].
  - split.
    + intros [message Hm]. destruct Hdec as [Hv | Hs]; [ | exact Hs ].
      rewrite (analyzeResume_valid this resumeText Hv) in Hm. discriminate.
    + intros Hs. eexists. rewrite (analyzeResume_invalid this resumeText (Hinv Hs)).
      reflexivity.
  - intros Hs. rewrite (analyzeResume_invalid this resumeText (Hinv Hs)). reflexivity.
  - intros Hne Hlen. eexists.
    rewrite (analyzeResume_valid this resumeText); [ reflexivity | ].
    split; [ exact Hne | lia ].
Qed.

(** C2, as stated, fails: the validation error is not surfaced verbatim.
    For the empty input the caller receives the wrapped message, which is
    not the message thrown by the validation. *)
Lemma validation_error_is_wrapped :
  snd (analyzeResume (lib := plainLibrary) freshAnalyzer "")
  = Rejected "Failed to analyze resume: Resume content is too short or empty"
  /\ snd (analyzeResume (lib := plainLibrary) freshAnalyzer "")
     <> Rejected "Resume content is too short or empty".
Proof.
  split.
  - reflexivity.
  - vm_compute. discriminate.
Qed.

(** C3. Each of the six scorers clamps its own result: for every input it
    returns an integer in 0..100.  Hence, for every valid input, the six
    section scores of the report lie in 0..100, and its overall score is an
    integer in 0..100 as well. *)
Theorem scores_clamped {lib : Library} (resumeText : string) :
  (0 <= scoreSkillsSection resumeText <= 100)
  /\ (0 <= scoreExperienceSection resumeText <= 100)
  /\ (0 <= scoreEducationSection resumeText <= 100)
  /\ (0 <= scoreProjectsSection resumeText <= 100)
  /\ (0 <= scoreAchievementsSection resumeText <= 100)
  /\ (0 <= scoreFormatting resumeText <= 100)
  /\ (forall this : Analyzer,
        validInput resumeText ->
        exists (report : Report) (r : Z),
          snd (analyzeResume this resumeText) = Resolved report
          /\ scores report = scoreSections resumeText
          /\ inRange (scores report)
          /\ overall report = JS.number r
          /\ 0 <= r <= 100).
Proof.
  repeat (split; [ solve [ auto with scores ] | ]).
  intros this Hv. rewrite (analyzeResume_valid this resumeText Hv). cbn [snd].
  pose proof (scoreSections_inRange resumeText) as Hin.
  destruct (overallScore_nearest _ Hin) as [r [Hr Hn]].
  eexists. exists r. split; [ reflexivity | ]. cbn [scores overall].
  split; [ reflexivity | ]. split; [ exact Hin | ]. split; [ exact Hr | ].
  unfold inRange in Hin. unfold weightedHundredths in Hn. lia.
Qed.

(** The threshold, on two inputs: 100 characters between blanks are
    accepted, 99 are not. *)
Example hundred_characters_accepted :
  String.length (JS.trim ("  " ++ hundredCharacters ++ " ")) = 100%nat
  /\ exists report,
       snd (analyzeResume (lib := plainLibrary) freshAnalyzer
              ("  " ++ hundredCharacters ++ " "))
       = Resolved report.
Proof.
  split; [ vm_compute; reflexivity | ].
  eexists. rewrite analyzeResume_valid; [ reflexivity | ].
  split; [ vm_compute; discriminate | vm_compute; lia ].
Qed.

Example ninety_nine_characters_rejected :
  snd (analyzeResume (lib := plainLibrary) freshAnalyzer
         (String.substring 0 99 hundredCharacters))
  = Rejected "Failed to analyze resume: Resume content is too short or empty".
Proof. vm_compute. reflexivity. Qed.

(** ** Recommendations *)

Lemma In_pushIf {A : Type} (c : bool) (arr : list A) (x y : A) :
  In y (pushIf c arr x) -> In y arr \/ (c = true /\ y = x).
Proof.
  unfold pushIf. destruct c; [ | now left ].
  intros H. apply in_app_or in H. destruct H as [H | [H | []]]; auto.
Qed.

Lemma pushIf_cons {A : Type} (c : bool) (a : A) (arr : list A) (x : A) :
  pushIf c (a :: arr) x = a :: pushIf c arr x.
Proof. unfold pushIf. now destruct c. Qed.

Lemma In_slice0 {A : Type} (n : nat) (l : list A) (x : A) :
  In x (JS.slice0 n l) -> In x l.
Proof.
  unfold JS.slice0. revert l. induction n as [| n IH]; intros [| a l] H; simpl in *; auto;
    try contradiction.
  destruct H as [H | H]; auto.
Qed.

Lemma slice0_length {A : Type} (n : nat) (l : list A) :
  (List.length (JS.slice0 n l) <= n)%nat.
Proof. unfold JS.slice0. apply firstn_le_length. Qed.

(** *** The test for a quantification signal *)

Lemma In_allAscii (a : ascii) : In a allAscii.
Proof.
  unfold allAscii. apply in_map_iff. exists (nat_of_ascii a). split.
  - apply ascii_nat_embedding.
  - apply in_seq. pose proof (nat_ascii_bounded a). lia.
Qed.

Lemma foldCase_lowerChar_all :
  forallb (fun a =>
             forallb (fun c => Bool.eqb (Ascii.eqb (Regex.foldCase a) (Regex.foldCase c))
                                        (Ascii.eqb c (JS.lowerChar a)))
                     lowercaseLetters)
          allAscii = true.
Proof. vm_compute. reflexivity. Qed.

Lemma foldCase_lowerChar (a c : ascii) :
  In c lowercaseLetters ->
  Ascii.eqb (Regex.foldCase a) (Regex.foldCase c) = Ascii.eqb c (JS.lowerChar a).
Proof.
  intros Hc. pose proof foldCase_lowerChar_all as H.
  rewrite forallb_forall in H. specialize (H a (In_allAscii a)).
  rewrite forallb_forall in H. specialize (H c Hc).
  now apply Bool.eqb_prop.
Qed.

Lemma prefixI_prefix (v : string) :
  everyChar (fun c => existsb (Ascii.eqb c) lowercaseLetters) v = true ->
  forall s, prefixI v s = String.prefix v (JS.toLowerCase s).
Proof.
  induction v as [| c v IH]; intros Hv s.
  - destruct s; reflexivity.
  - cbn [everyChar] in Hv. apply andb_true_iff in Hv. destruct Hv as [Hc Hv].
    destruct s as [| a s]; [ reflexivity | ].
    cbn [prefixI JS.toLowerCase JS.mapString String.prefix].
    rewrite foldCase_lowerChar.
    + fold (JS.toLowerCase s). rewrite (IH Hv s).
      destruct (ascii_dec c (JS.lowerChar a)) as [<- | Hne].
      * now rewrite Ascii.eqb_refl.
      * apply Ascii.eqb_neq in Hne. now rewrite Hne.
    + apply existsb_exists in Hc. destruct Hc as [x [Hx Hcx]].
      apply Ascii.eqb_eq in Hcx. now subst.
Qed.

Lemma run_litI_fail (v : string) :
  forall prev s k, prefixI v s = false -> Regex.run (Regex.litI v) prev s k = None.
Proof.
  induction v as [| c v IH]; intros prev s k H.
  - destruct s; discriminate H.
  - destruct s as [| a s].
    + destruct v; reflexivity.
    + cbn [prefixI] in H. destruct v as [| c' v'].
      * cbn [Regex.litI Regex.run Regex.chrI].
        cbn [prefixI] in H. rewrite andb_true_r in H. now rewrite H.
      * change (Regex.litI (String c (String c' v')))
          with (Regex.Seq (Regex.chrI c) (Regex.litI (String c' v'))).
        cbn [Regex.run Regex.chrI].
        destruct (Ascii.eqb (Regex.foldCase a) (Regex.foldCase c)); [ | reflexivity ].
        apply IH. exact H.
Qed.

Lemma includes_false_here (s sub : string) :
  JS.includes s sub = false -> String.prefix sub s = false.
Proof. destruct s; cbn [JS.includes]; destruct (String.prefix sub _); auto; discriminate. Qed.

Lemma includes_false_later (a : ascii) (s sub : string) :
  JS.includes (String a s) sub = false -> JS.includes s sub = false.
Proof. cbn [JS.includes]. destruct (String.prefix sub (String a s)); auto; discriminate. Qed.

Lemma matchAt_no_signal (prev : option ascii) (s : string) :
  match s with String a _ => signalChar a = false | EmptyString => True end ->
  forallb (fun verb => negb (prefixI verb s)) quantificationVerbs = true ->
  Regex.matchAt Patterns.quantificationSignal prev s = None.
Proof.
  intros Hc Hv. unfold quantificationVerbs in Hv. cbn [forallb] in Hv.
  repeat (apply andb_true_iff in Hv; destruct Hv as [?H Hv]).
  repeat match goal with H : negb _ = true |- _ => apply negb_true_iff in H end.
  unfold Regex.matchAt, Patterns.quantificationSignal.
  cbn [Regex.run].
  rewrite !run_litI_fail by assumption.
  destruct s as [| a s]; [ reflexivity | ].
  unfold signalChar in Hc. now rewrite Hc.
Qed.

Lemma no_signal_no_match (fuel : nat) :
  forall prev text,
    everyChar (fun c => negb (signalChar c)) text = true ->
    forallb (fun verb => negb (JS.includes (JS.toLowerCase text) verb)) quantificationVerbs
    = true ->
    Regex.matchAllFrom Patterns.quantificationSignal fuel prev text = [].
Proof.
  induction fuel as [| fuel IH]; intros prev text Hc Hv; [ reflexivity | ].
  cbn [Regex.matchAllFrom].
  assert (Hhere : Regex.matchAt Patterns.quantificationSignal prev text = None).
  { apply matchAt_no_signal.
    - destruct text as [| a t]; [ exact I | ].
      cbn [everyChar] in Hc. apply andb_true_iff in Hc. destruct Hc as [Ha _].
      now apply negb_true_iff in Ha.
    - rewrite forallb_forall in Hv. apply forallb_forall. intros verb Hverb.
      specialize (Hv verb Hverb). apply negb_true_iff in Hv. apply negb_true_iff.
      rewrite prefixI_prefix.
      + now apply includes_false_here.
      + unfold quantificationVerbs in Hverb. cbn [In] in Hverb.
        repeat (destruct Hverb as [<- | Hverb]; [ vm_compute; reflexivity | ]).
        destruct Hverb. }
  rewrite Hhere. destruct text as [| a t]; [ reflexivity | ].
  apply IH.
  - cbn [everyChar] in Hc. apply andb_true_iff in Hc. tauto.
  - rewrite forallb_forall in Hv. apply forallb_forall. intros verb Hverb.
    specialize (Hv verb Hverb). apply negb_true_iff in Hv. apply negb_true_iff.
    cbn [JS.toLowerCase JS.mapString] in Hv. now apply includes_false_later in Hv.
Qed.

Lemma no_signal_test (text : string) :
  everyChar (fun c => negb (signalChar c)) text = true ->
  forallb (fun verb => negb (JS.includes (JS.toLowerCase text) verb)) quantificationVerbs
  = true ->
  Regex.test Patterns.quantificationSignal text = false.
Proof.
  intros Hc Hv. unfold Regex.test, Regex.matchAll.
  now rewrite (no_signal_no_match _ None text Hc Hv).
Qed.

Lemma plusResume_has_signal :
  Regex.test Patterns.quantificationSignal plusResume = true.
Proof. vm_compute. reflexivity. Qed.

(** C4, at an input where the code departs from it.  [plusResume] is a
    valid input with no digit, no percent sign, no dollar sign and none of
    the quantification verbs; it contains a plus sign, which the test for a
    quantification signal accepts, and its recommendations do not flag
    missing quantified achievements.  For a resume that has no plus sign
    either, the recommendation is produced: it is the first of the list and
    has priority High. *)
Theorem plus_sign_hides_missing_metrics {lib : Library} (sections : Sections) :
  validInput plusResume
  /\ everyChar (fun c => negb (JS.isDigit c || JS.isCode 37 c || JS.isCode 36 c))
               plusResume = true
  /\ forallb (fun verb => negb (JS.includes (JS.toLowerCase plusResume) verb))
             quantificationVerbs = true
  /\ (forall r, In r (generateRecommendations plusResume sections) ->
        problem r <> "Resume lacks quantified achievements")
  /\ (forall resumeText,
        everyChar (fun c => negb (signalChar c)) resumeText = true ->
        forallb (fun verb => negb (JS.includes (JS.toLowerCase resumeText) verb))
                quantificationVerbs = true ->
        exists rest,
          generateRecommendations resumeText sections = lacksQuantification :: rest
          /\ problem lacksQuantification = "Resume lacks quantified achievements"
          /\ priority lacksQuantification = "High").
Proof.
  split; [ split; [ vm_compute; discriminate | vm_compute; lia ] | ].
  split; [ vm_compute; reflexivity | ].
  split; [ vm_compute; reflexivity | ].
  split.
  - intros r Hin. unfold generateRecommendations in Hin.
    rewrite plusResume_has_signal in Hin. cbn [negb] in Hin.
    apply In_slice0 in Hin.
    repeat (apply In_pushIf in Hin; destruct Hin as [Hin | [Hc ->]]);
      try discriminate Hc; try (cbn; discriminate).
    destruct Hin.
  - intros resumeText Hchars Hverbs. unfold generateRecommendations.
    rewrite (no_signal_test resumeText Hchars Hverbs). cbn [negb].
    change (pushIf true [] lacksQuantification) with [lacksQuantification].
    rewrite !pushIf_cons. unfold JS.slice0. cbn [firstn].
    eexists. split; [ reflexivity | split; reflexivity ].
Qed.

(** ** Industry detection *)

Lemma indicatorMatches_nonneg (keywords tokens : list string) :
  0 <= indicatorMatches keywords tokens.
Proof. unfold indicatorMatches. lia. Qed.

Lemma detect_fold (tokens : list string) (table : list (string * list string)) :
  forall state : string * Z,
    ((forall e, In e table -> indicatorMatches (snd e) tokens <= snd state)
     /\ fold_left (detectStep tokens) table state = state)
    \/ (exists pre e post,
          table = pre ++ e :: post
          /\ fold_left (detectStep tokens) table state
             = (fst e, indicatorMatches (snd e) tokens)
          /\ snd state < indicatorMatches (snd e) tokens
          /\ (forall x, In x pre ->
                indicatorMatches (snd x) tokens < indicatorMatches (snd e) tokens)
          /\ (forall x, In x post ->
                indicatorMatches (snd x) tokens <= indicatorMatches (snd e) tokens)).
Proof.
  induction table as [| e table IH]; intros state.
  - left. split; [ intros e He; destruct He | reflexivity ].
  - cbn [fold_left]. unfold detectStep at 2 4.
    destruct (snd state <? indicatorMatches (snd e) tokens) eqn:Hlt.
    + apply Z.ltb_lt in Hlt. right.
      destruct (IH (fst e, indicatorMatches (snd e) tokens))
        as [[Hall Heq] | (pre & e' & post & Ht & Heq & Hgt & Hpre & Hpost)].
      * exists [], e, table. cbn [snd] in Hall. repeat split; auto.
        intros x Hx; destruct Hx.
      * exists (e :: pre), e', post. cbn [snd] in Hgt. subst table.
        repeat split; auto; [ lia | ].
        intros x [<- | Hx]; auto.
    + apply Z.ltb_ge in Hlt.
      destruct (IH state)
        as [[Hall Heq] | (pre & e' & post & Ht & Heq & Hgt & Hpre & Hpost)].
      * left. split; auto. intros x [<- | Hx]; auto.
      * right. exists (e :: pre), e', post. subst table. repeat split; auto.
        intros x [<- | Hx]; [ lia | auto ].
Qed.

Lemma detectIndustry_firstMaximum (table : list (string * list string))
    (tokens : list string) :
  firstMaximum tokens table (detectIndustry table tokens).
Proof.
  unfold firstMaximum, detectIndustry.
  destruct (detect_fold tokens table ("general", 0))
    as [[Hall Heq] | (pre & e & post & Ht & Heq & Hgt & Hpre & Hpost)].
  - left. rewrite Heq. split; [ | reflexivity ].
    intros e He. specialize (Hall e He). cbn [snd] in Hall.
    pose proof (indicatorMatches_nonneg (snd e) tokens). lia.
  - right. exists pre, e, post. rewrite Heq. cbn [fst snd] in *. repeat split; auto.
Qed.

(** C5. Both detection loops visit the industries in the fixed order
    technology, business, healthcare, education, engineering, creative,
    service, legal, government, finance, count for each the indicator
    keywords that match some token (in either direction), and return the
    first industry whose count is the largest: a later industry with an
    equal count never displaces it; when every count is 0 the result is
    [general].  [generateRoadmap] and [suggestRoles] use that result. *)
Theorem industry_detection_first_maximum (tokens : list string) :
  map fst roadmapIndicators = industryOrder
  /\ map fst roleIndicators = industryOrder
  /\ firstMaximum tokens roadmapIndicators (detectIndustry roadmapIndicators tokens)
  /\ firstMaximum tokens roleIndicators (detectIndustry roleIndicators tokens)
  /\ (forall keywords,
        indicatorMatches keywords tokens
        = Z.of_nat (List.length
            (filter (fun keyword =>
                       existsb (fun token =>
                                  JS.includes token (cleanKeyword keyword)
                                  || JS.includes (cleanKeyword keyword) token) tokens)
                    keywords)))
  /\ (forall (lib : Library) (resumeText : string) (sections : Sections),
        preprocessText resumeText = tokens ->
        generateRoadmap resumeText sections
        = assembleRoadmap
            (lookupOr (detectIndustry roadmapIndicators tokens) "general" industryRoadmaps)
            sections
        /\ suggestRoles {| lastResumeText := Some resumeText |} sections []
           = JS.slice0 8
               (JS.Set_of (rolesPushed (detectIndustry roleIndicators tokens) sections))).
Proof.
  split; [ reflexivity | ]. split; [ reflexivity | ].
  split; [ apply detectIndustry_firstMaximum | ].
  split; [ apply detectIndustry_firstMaximum | ].
  split; [ reflexivity | ].
  intros lib resumeText sections <-. split; reflexivity.
Qed.

(** *** The two indicator tables *)

Lemma filter_subsequence (p : string -> bool) (l' : list string) :
  forall l, subsequence l l' = true ->
  (List.length (filter p l) <= List.length (filter p l'))%nat.
Proof.
  induction l' as [| y l' IH]; intros [| x l] H; cbn [subsequence] in H.
  - cbn. lia.
  - discriminate.
  - cbn. lia.
  - destruct (x =? y)%string eqn:Hxy.
    + apply String.eqb_eq in Hxy. subst y. specialize (IH l H).
      cbn [filter]. destruct (p x); cbn [List.length]; lia.
    + specialize (IH (x :: l) H). cbn [filter] in *.
      destruct (p y); cbn [List.length] in *; lia.
Qed.

Lemma nested_counts (tokens : list string) (t t' : list (string * list string)) :
  nested t t' = true ->
  Forall2 (fun e e' => fst e = fst e'
                       /\ indicatorMatches (snd e) tokens <= indicatorMatches (snd e') tokens)
          t t'.
Proof.
  unfold nested. rewrite andb_true_iff. intros [Hlen Hall].
  apply Nat.eqb_eq in Hlen. revert t' Hlen Hall.
  induction t as [| e t IH]; intros [| e' t'] Hlen Hall; try discriminate.
  - constructor.
  - cbn [combine forallb fst snd] in Hall.
    apply andb_true_iff in Hall. destruct Hall as [He Hall].
    apply andb_true_iff in He. destruct He as [Hname Hsub].
    constructor.
    + split; [ now apply String.eqb_eq | ].
      unfold indicatorMatches, matchedKeywords.
      apply Nat2Z.inj_le. now apply filter_subsequence.
    + apply IH; [ cbn in Hlen; lia | exact Hall ].
Qed.

Lemma Forall2_In_l {A B : Type} (R : A -> B -> Prop) (l : list A) (l' : list B) :
  Forall2 R l l' -> forall x, In x l -> exists y, In y l' /\ R x y.
Proof.
  induction 1 as [| a b l l' Hab _ IH]; intros x Hx.
  - destruct Hx.
  - destruct Hx as [<- | Hx].
    + exists b. split; [ now left | exact Hab ].
    + destruct (IH x Hx) as [y [Hy Hr]]. exists y. split; [ now right | exact Hr ].
Qed.

Lemma tables_nested : nested roadmapIndicators roleIndicators = true.
Proof. vm_compute. reflexivity. Qed.

Lemma roleIndicators_named :
  forall e, In e roleIndicators -> fst e <> "general".
Proof.
  intros e He. assert (Hin : In (fst e) (map fst roleIndicators)) by now apply in_map.
  change (map fst roleIndicators) with industryOrder in Hin.
  intros Heq. rewrite Heq in Hin. cbv in Hin.
  repeat (destruct Hin as [Hin | Hin]; [ discriminate Hin | ]). exact Hin.
Qed.

(** C6, as stated, fails: on the resume [pythonResume], whose tokens are
    all [python], the roadmap is the one of the fallback [general] while the
    roles are those of [technology]. *)
Lemma roadmap_and_roles_industries_differ :
  detectIndustry roadmapIndicators (preprocessText (lib := plainLibrary) pythonResume)
  = "general"
  /\ detectIndustry roleIndicators (preprocessText (lib := plainLibrary) pythonResume)
     = "technology"
  /\ (exists report,
        snd (analyzeResume (lib := plainLibrary) freshAnalyzer pythonResume) = Resolved report
        /\ map title (firstn 1 (roadmap report)) = ["Develop Professional Skills"]
        /\ firstn 1 (targetRoles report) = ["Software Developer"]).
Proof.
  split; [ vm_compute; reflexivity | ].
  split; [ vm_compute; reflexivity | ].
  eexists. split; [ vm_compute; reflexivity | ].
  split; vm_compute; reflexivity.
Qed.

(** C6, as the code has it.  The roadmap and the role suggestion run the
    same detection loop over two different indicator tables: the industries
    and their order agree, and every industry's keyword list in the role
    table extends its list in the roadmap table.  Hence, for every token
    sequence, each industry counts at least as many matches for the roles
    as for the roadmap, and whenever the roadmap's industry is not the
    fallback [general], the roles' industry is not [general] either. *)
Theorem role_table_extends_roadmap_table (tokens : list string) :
  Forall2 (fun e e' => fst e = fst e'
                       /\ indicatorMatches (snd e) tokens <= indicatorMatches (snd e') tokens)
          roadmapIndicators roleIndicators
  /\ (detectIndustry roadmapIndicators tokens <> "general" ->
      detectIndustry roleIndicators tokens <> "general").
Proof.
  pose proof (nested_counts tokens _ _ tables_nested) as Hn.
  split; [ exact Hn | ].
  intros Hroad Hrole. apply Hroad. clear Hroad.
  destruct (detectIndustry_firstMaximum roleIndicators tokens)
    as [[Hzero _] | (pre & e & post & Ht & Heq & _)].
  - destruct (detectIndustry_firstMaximum roadmapIndicators tokens)
      as [[_ Hg] | (pre & e & post & Ht & _ & Hpos & _)]; [ exact Hg | ].
    assert (He : In e roadmapIndicators).
    { rewrite Ht. apply in_or_app. right. now left. }
    destruct (Forall2_In_l _ _ _ Hn e He) as [e' [He' [_ Hle]]].
    specialize (Hzero e' He'). lia.
  - exfalso. apply (roleIndicators_named e).
    + rewrite Ht. apply in_or_app. right. now left.
    + now rewrite <- Heq.
Qed.

(** ** Salary *)











(** ** Experience level *)





(** A Senior resume of overall score 50, and an unknown tier that is no
    property of the table. *)
Example senior_salary_at_50 :
  salaryBounds (JS.number 50) "Senior Level" = (JS.number 87500, JS.number 129500)
  /\ salaryBounds (JS.number 50) "Principal" = (JS.number 31500, JS.number 52500)
  /\ range (estimateSalary (lib := plainLibrary) (JS.number 50) "Senior Level")
     = "$87500 - $129500"
  /\ range (estimateSalary (lib := plainLibrary) (JS.number 50) "toString")
     = "$NaN - $NaN".
Proof. repeat split; vm_compute; reflexivity. Qed.

(** ** Roadmap *)

Lemma template_length (industry : string) :
  List.length (lookupOr industry "general" industryRoadmaps) = 3%nat.
Proof.
  unfold lookupOr, industryRoadmaps. cbn [lookup].
  repeat match goal with
         | |- context [(?k =? industry)%string] =>
             destruct (k =? industry)%string; [ reflexivity | ]
         end.
  reflexivity.
Qed.

Lemma assembleRoadmap_eq (base : list RoadmapItem) (sections : Sections) :
  assembleRoadmap base sections
  = firstn 6 (base ++ conditionalSteps sections ++ [closingStep]).
Proof.
  unfold assembleRoadmap, conditionalSteps, pushIf, JS.slice0.
  destruct (70 <? experience sections); destruct (60 <? skills sections);
    cbn [app]; rewrite <- ?app_assoc; reflexivity.
Qed.

Lemma conditionalSteps_length (sections : Sections) :
  (List.length (conditionalSteps sections) <= 2)%nat.
Proof.
  unfold conditionalSteps.
  destruct (70 <? experience sections); destruct (60 <? skills sections); cbn; lia.
Qed.

(** C8. The roadmap is the 3-step template of the detected industry, then
    the leadership step if the experience score exceeds 70, then the
    certification step if the skills score exceeds 60, then the closing
    step, cut to 6 items; whenever the steps before the closing one already
    number 6 or more, the cut leaves the closing step out.  (With the
    3-step templates of the table at most 5 steps precede it.) *)
Theorem generateRoadmap_structure {lib : Library} (resumeText : string)
    (sections : Sections) :
  let template :=
    lookupOr (detectIndustry roadmapIndicators (preprocessText resumeText))
             "general" industryRoadmaps in
  List.length template = 3%nat
  /\ conditionalSteps sections
     = (if 70 <? experience sections then [leadershipStep] else [])
       ++ (if 60 <? skills sections then [certificationStep] else [])
  /\ generateRoadmap resumeText sections
     = firstn 6 (template ++ conditionalSteps sections ++ [closingStep])
  /\ (List.length (generateRoadmap resumeText sections) <= 6)%nat
  /\ (forall base : list RoadmapItem,
        (6 <= List.length (base ++ conditionalSteps sections))%nat ->
        assembleRoadmap base sections = firstn 6 (base ++ conditionalSteps sections)).
Proof.
  cbv zeta. split; [ apply template_length | ]. split; [ reflexivity | ].
  split; [ apply assembleRoadmap_eq | ]. split; [ apply slice0_length | ].
  intros base Hlen. rewrite assembleRoadmap_eq, app_assoc.
  rewrite firstn_app.
  replace (6 - List.length (base ++ conditionalSteps sections))%nat with 0%nat by lia.
  cbn [firstn]. apply app_nil_r.
Qed.

(** With the templates of the table nothing is ever cut: the roadmap has 4
    to 6 steps and the closing step is the last of them. *)
Lemma roadmap_never_cut {lib : Library} (resumeText : string) (sections : Sections) :
  exists steps,
    generateRoadmap resumeText sections = steps ++ [closingStep]
    /\ (3 <= List.length steps <= 5)%nat.
Proof.
  unfold generateRoadmap. rewrite assembleRoadmap_eq.
  set (template := lookupOr _ _ _).
  pose proof (template_length (detectIndustry roadmapIndicators (preprocessText resumeText)))
    as Ht. fold template in Ht.
  pose proof (conditionalSteps_length sections) as Hc.
  exists (template ++ conditionalSteps sections). split.
  - rewrite app_assoc. apply firstn_all2. rewrite !length_app. cbn [List.length]. lia.
  - rewrite length_app. lia.
Qed.

(** The cut itself, on a template of four steps and scores that add both
    conditional steps: six steps precede the closing one, which is left out. *)
Example four_step_template_loses_closing_step :
  let sections := {| skills := 70; experience := 80; education := 0; projects := 0;
                     formatting := 0; achievements := 0 |} in
  assembleRoadmap fourSteps sections = fourSteps ++ [leadershipStep; certificationStep]
  /\ ~ In closingStep (assembleRoadmap fourSteps sections).
Proof.
  cbv zeta. split; [ reflexivity | ].
  cbv. intros H. repeat (destruct H as [H | H]; [ discriminate H | ]). exact H.
Qed.

(** ** Preprocessing *)

Lemma removeSpecial_char (c : ascii) (s : string) :
  removeSpecial (String c s)
  = String (if keptChar c then c else " "%char) (removeSpecial s).
Proof. reflexivity. Qed.

Lemma removeSpecial_length (s : string) :
  String.length (removeSpecial s) = String.length s.
Proof.
  induction s as [| c s IH]; [ reflexivity | ].
  rewrite removeSpecial_char. cbn [String.length]. now rewrite IH.
Qed.

Lemma keptChar_symbols :
  forallb keptChar (list_ascii_of_string "-/+#.@_()") = true
  /\ forallb (fun c => negb (keptChar c)) (list_ascii_of_string "!$%^&*=[]{}|\:;,<>?~'") = true.
Proof. split; vm_compute; reflexivity. Qed.

Lemma everyChar_app (p : ascii -> bool) (s t : string) :
  everyChar p (s ++ t)%string = everyChar p s && everyChar p t.
Proof.
  induction s as [| c s IH]; [ reflexivity | ].
  cbn [String.append everyChar]. rewrite IH. apply andb_assoc.
Qed.

Lemma tokenizeFrom_words (s : string) :
  forall cur token,
    everyChar JS.isWord cur = true ->
    In token (Natural.tokenizeFrom cur s) ->
    everyChar JS.isWord token = true.
Proof.
  induction s as [| c s IH]; intros cur token Hcur Hin; cbn [Natural.tokenizeFrom] in Hin.
  - destruct (cur =? "")%string; [ destruct Hin | ].
    destruct Hin as [<- | []]. exact Hcur.
  - destruct (JS.isWord c) eqn:Hc.
    + apply (IH (cur ++ String c "")%string); [ | exact Hin ].
      rewrite everyChar_app, Hcur. cbn [everyChar]. now rewrite Hc.
    + apply in_app_or in Hin. destruct Hin as [Hin | Hin].
      * destruct (cur =? "")%string; [ destruct Hin | ].
        destruct Hin as [<- | []]. exact Hcur.
      * apply (IH ""%string); [ reflexivity | exact Hin ].
Qed.

Lemma includes_char_false (p : ascii -> bool) (c : ascii) (t : string) :
  p c = false -> everyChar p t = true -> JS.includes t (String c "") = false.
Proof.
  intros Hc. induction t as [| a t IH]; intros Ht; [ reflexivity | ].
  cbn [everyChar] in Ht. apply andb_true_iff in Ht. destruct Ht as [Ha Ht].
  cbn [JS.includes String.prefix].
  destruct (ascii_dec c a) as [-> | _]; [ congruence | ]. now apply IH.
Qed.

(** C9, at an input where the code departs from it.  The replacement step
    does keep [+], [#] and [.]: the text handed to the tokenizer for
    ["C++ C# Node.js"] is ["c++ c# node.js"].  The word tokenizer then splits
    at every character that is not a letter, a digit or an underscore, so
    the tokens that reach stopword removal and stemming are [c], [c],
    [node] and [js]: none of them contains [+], [#] or [.]. *)
Theorem tokenizer_drops_kept_symbols
    (removeStopwords' : list string -> list string) (stem' : string -> string)
    (toLocaleString' numberToString' : float -> string) :
  let lib := {| tokenize := Natural.WordTokenizer_tokenize;
                removeStopwords := removeStopwords';
                stem := stem';
                toLocaleString := toLocaleString';
                numberToString := numberToString' |} in
  removeSpecial (JS.toLowerCase "C++ C# Node.js") = "c++ c# node.js"
  /\ Natural.WordTokenizer_tokenize "c++ c# node.js" = ["c"; "c"; "node"; "js"]
  /\ preprocessText (lib := lib) "C++ C# Node.js"
     = map stem' (removeStopwords' ["c"; "c"; "node"; "js"])
  /\ (forall text token,
        In token (Natural.WordTokenizer_tokenize text) ->
        JS.includes token "+" = false
        /\ JS.includes token "#" = false
        /\ JS.includes token "." = false).
Proof.
  cbv zeta. split; [ vm_compute; reflexivity | ]. split; [ vm_compute; reflexivity | ].
  split; [ reflexivity | ].
  intros text token Hin.
  assert (Hw : everyChar JS.isWord token = true).
  { apply (tokenizeFrom_words text ""%string token); [ reflexivity | exact Hin ]. }
  repeat split; apply (includes_char_false JS.isWord); auto.
Qed.

(** ** Capped lists *)

Lemma filter_filter {A : Type} (p q : A -> bool) (l : list A) :
  filter p (filter q l) = filter (fun x => q x && p x) l.
Proof.
  induction l as [| a l IH]; [ reflexivity | ].
  cbn [filter]. destruct (q a); cbn [filter andb]; [ destruct (p a) | ]; now rewrite IH.
Qed.

Lemma existsb_eqb_app (x y : string) (acc : list string) :
  existsb (String.eqb x) (acc ++ [y]) = existsb (String.eqb x) acc || (x =? y)%string.
Proof. rewrite existsb_app. cbn [existsb]. now rewrite orb_false_r. Qed.

(** Inserting the elements of [l] one by one into a set that holds [acc]
    appends to [acc], in the order of their first occurrence in [l], the
    elements that [acc] does not hold. *)
Lemma fold_Set_add (l : list string) :
  forall acc,
    fold_left JS.Set_add l acc
    = acc ++ filter (fun y => negb (existsb (String.eqb y) acc)) (keepFirst l).
Proof.
  induction l as [| x l IH]; intros acc.
  - cbn. now rewrite app_nil_r.
  - cbn [fold_left keepFirst filter]. rewrite IH. unfold JS.Set_add.
    destruct (existsb (String.eqb x) acc) eqn:Hx; cbn [negb].
    + f_equal. rewrite filter_filter. apply filter_ext. intros y.
      destruct (y =? x)%string eqn:Hyx; cbn [negb andb]; [ | reflexivity ].
      apply String.eqb_eq in Hyx. subst y. now rewrite Hx.
    + rewrite <- app_assoc. cbn [app]. do 2 f_equal.
      rewrite filter_filter. apply filter_ext. intros y.
      rewrite existsb_eqb_app, negb_orb. apply andb_comm.
Qed.

Lemma Set_of_keepFirst (l : list string) : JS.Set_of l = keepFirst l.
Proof.
  unfold JS.Set_of. rewrite fold_Set_add. cbn [app existsb negb].
  induction (keepFirst l) as [| a k IH]; [ reflexivity | ]. cbn [filter]. now rewrite IH.
Qed.

Lemma keepFirst_In (l : list string) (x : string) : In x (keepFirst l) <-> In x l.
Proof.
  induction l as [| a l IH]; [ reflexivity | ].
  cbn [keepFirst In]. rewrite filter_In, IH, negb_true_iff, String.eqb_neq.
  destruct (string_dec a x) as [-> | Hne]; [ tauto | ].
  split; [ tauto | ]. intros [H | H]; [ tauto | ]. right. split; [ exact H | congruence ].
Qed.

Lemma NoDup_filter {A : Type} (p : A -> bool) (l : list A) : NoDup l -> NoDup (filter p l).
Proof.
  induction 1 as [| a l Hnotin _ IH]; [ constructor | ].
  cbn [filter]. destruct (p a); [ | exact IH ].
  constructor; [ | exact IH ]. rewrite filter_In. tauto.
Qed.

Lemma keepFirst_NoDup (l : list string) : NoDup (keepFirst l).
Proof.
  induction l as [| a l IH]; [ constructor | ].
  cbn [keepFirst]. constructor.
  - rewrite filter_In, negb_true_iff, String.eqb_neq. tauto.
  - now apply NoDup_filter.
Qed.

Lemma NoDup_firstn {A : Type} (n : nat) (l : list A) : NoDup l -> NoDup (firstn n l).
Proof.
  intros H. revert n. induction H as [| a l Hnotin _ IH]; intros [| n]; cbn [firstn];
    try constructor.
  - intros Hin. apply Hnotin. now apply (In_slice0 n l a).
  - apply IH.
Qed.

(** C10. Whatever the input, [primarySkills] has at most 8 elements,
    [detailedRecommendations] at most 6, [roadmap] at most 6 and
    [targetRoles] at most 8; [targetRoles] has no duplicate and lists the
    pushed titles in the order of their first occurrence. *)
Theorem lists_capped {lib : Library} (this : Analyzer) (resumeText : string)
    (sections : Sections) (skillsFound : list string) :
  (List.length (detectPrimarySkills resumeText) <= 8)%nat
  /\ (List.length (generateRecommendations resumeText sections) <= 6)%nat
  /\ (List.length (generateRoadmap resumeText sections) <= 6)%nat
  /\ (List.length (suggestRoles this sections skillsFound) <= 8)%nat
  /\ NoDup (suggestRoles this sections skillsFound)
  /\ (let tokens := preprocessText (match lastResumeText this with
                                     | Some text => text
                                     | None => ""
                                     end) in
      let pushed := rolesPushed (detectIndustry roleIndicators tokens) sections in
      suggestRoles this sections skillsFound = firstn 8 (keepFirst pushed)
      /\ NoDup (keepFirst pushed)
      /\ forall role, In role (keepFirst pushed) <-> In role pushed)
  /\ (forall report,
        snd (analyzeResume this resumeText) = Resolved report ->
        (List.length (primarySkills report) <= 8)%nat
        /\ (List.length (detailedRecommendations report) <= 6)%nat
        /\ (List.length (roadmap report) <= 6)%nat
        /\ (List.length (targetRoles report) <= 8)%nat
        /\ NoDup (targetRoles report)).
Proof.
  assert (Hroles : forall this' s k,
            (List.length (suggestRoles this' s k) <= 8)%nat
            /\ NoDup (suggestRoles this' s k)).
  { intros this' s k. unfold suggestRoles. split; [ apply slice0_length | ].
    unfold JS.slice0. apply NoDup_firstn. rewrite Set_of_keepFirst. apply keepFirst_NoDup. }
  assert (Hskills : forall text, (List.length (detectPrimarySkills text) <= 8)%nat).
  { intros text. unfold detectPrimarySkills. rewrite length_map. apply slice0_length. }
  split; [ apply Hskills | ].
  split; [ apply slice0_length | ].
  split; [ apply slice0_length | ].
  split; [ apply Hroles | ].
  split; [ apply Hroles | ].
  split.
  - cbv zeta. split; [ | split ].
    + unfold suggestRoles, JS.slice0. rewrite Set_of_keepFirst. reflexivity.
    + apply keepFirst_NoDup.
    + intros role. apply keepFirst_In.
  - intros report Hr. unfold analyzeResume, analyze in Hr. cbn [snd] in Hr.
    destruct (tooShort resumeText); [ discriminate | ].
    injection Hr as <-. cbn [primarySkills detailedRecommendations roadmap targetRoles].
    split; [ apply Hskills | ].
    split; [ apply slice0_length | ].
    split; [ apply slice0_length | ].
    split; apply Hroles.
Qed.
